(** * Study Buddy: the four study tools and their persistence model

    A shallow embedding of [src/tools.ts] (the tools [generateQuiz],
    [checkAnswer], [getStudyStats], [saveProgress] and their input
    schemas) and of the parts of [src/server.ts] they rest on: the two
    tables created by [initializeDatabase] and the step budget
    [onChatMessage] hands to the generation loop.

    - JavaScript numbers are IEEE-754 binary64 values: they are modelled by
      the Standard Library's executable [spec_float] at precision 53.
      Row counts coming back from SQL are integers and are kept in [Z]
      until the code divides them.
    - The tagged template [agent.sql] is modelled statement by statement
      over two lists of rows; a statement may throw.
    - Tool bodies are written in a small state-and-exception monad so that
      [try]/[catch] reads as in the source.
    - The loop inside [streamText] ([ai] package) and the sanitizer
      [cleanupMessages] ([src/utils.ts]) are defined outside these two
      files; their models follow the specification and say so. *)

From Stdlib Require Import ZArith Floats.SpecFloat Ascii String.
From stdpp Require Import base tactics option list strings pretty sorting.

Local Open Scope string_scope.
Local Open Scope list_scope.
Local Open Scope Z_scope.

(** ** JavaScript numbers *)

Module Js.

Definition prec : Z := 53.
Definition emax : Z := 1024.

Definition number : Type := spec_float.

(** The number denoted by an integer literal or by an SQL integer. *)
Definition of_Z (z : Z) : number := binary_normalize prec emax z 0 false.

(** [x / y] and [x * y]. *)
Definition div (x y : number) : number := SFdiv prec emax x y.
Definition mul (x y : number) : number := SFmul prec emax x y.

(** [x < y], [x > y]; false as soon as an operand is NaN. *)
Definition lt (x y : number) : bool := SFltb x y.
Definition gt (x y : number) : bool := SFltb y x.

Definition is_nan (x : number) : bool :=
  match x with S754_nan => true | _ => false end.

(** [Math.round(x)]: the integral number closest to [x], ties going
    towards +infinity; NaN, infinities, zeros and integral values are
    returned unchanged, and a negative [x] that rounds to zero gives -0. *)
Definition Math_round (x : number) : number :=
  match x with
  | S754_finite s m e =>
      if 0 <=? e then x
      else
        let n := if s then Z.neg m else Z.pos m in
        let d := 2 ^ (- e) in
        let r := (2 * n + d) / (2 * d) in
        if (r =? 0) && s then S754_zero true else of_Z r
  | _ => x
  end.

(** Truthiness of a string: only the empty string is falsy. *)
Definition truthy (s : string) : bool :=
  match s with EmptyString => false | String _ _ => true end.

End Js.

#[global] Instance number_eq_dec : EqDecision Js.number.
Proof. unfold Js.number. solve_decision. Defined.

(** The conditional expression the source repeats for every accuracy
    field:
    [total > 0 ? Math.round((correct / total) * 100) : 0]. *)
Definition accuracy (correct total : Z) : Js.number :=
  if 0 <? total
  then Js.Math_round (Js.mul (Js.div (Js.of_Z correct) (Js.of_Z total)) (Js.of_Z 100))
  else Js.of_Z 0.

(** The percentage in exact arithmetic, rounded to the nearest integer with
    ties going up (what [Math.round] does on the exact quotient). *)
Definition round_half_up (num den : Z) : Z := (2 * num + den) / (2 * den).

Definition exact_percentage (correct total : Z) : Z :=
  round_half_up (100 * correct) total.

(** ** Strings *)

Definition nl : string := String (ascii_of_nat 10) EmptyString.
Definition dquote : string := String (ascii_of_nat 34) EmptyString.

(** ASCII lower-casing, the only case folding SQLite's [LIKE] performs. *)
Definition ascii_lower (c : ascii) : ascii :=
  let n := nat_of_ascii c in
  if (65 <=? n)%nat && (n <=? 90)%nat then ascii_of_nat (n + 32) else c.

Definition like_char (c d : ascii) : bool :=
  Ascii.eqb (ascii_lower c) (ascii_lower d).

Definition is_wildcard (c : ascii) : bool :=
  Ascii.eqb c "%" || Ascii.eqb c "_".

(** [text LIKE pattern]: [%] stands for any run of characters, [_] for
    exactly one character, every other pattern character for itself up to
    ASCII case. *)
Fixpoint like (pattern : string) : string -> bool :=
  match pattern with
  | EmptyString =>
      fun text => match text with EmptyString => true | String _ _ => false end
  | String c rest =>
      if Ascii.eqb c "%" then
        fix skip (text : string) : bool :=
          like rest text ||
          match text with EmptyString => false | String _ text' => skip text' end
      else if Ascii.eqb c "_" then
        fun text =>
          match text with EmptyString => false | String _ text' => like rest text' end
      else
        fun text =>
          match text with
          | EmptyString => false
          | String d text' => like_char c d && like rest text'
          end
  end.

(** ** The persisted schema ([initializeDatabase] in [src/server.ts]) *)

Record StudySession := {
  ss_id : string;                  (* id TEXT PRIMARY KEY *)
  ss_topic : string;               (* topic TEXT NOT NULL *)
  ss_created_at : string           (* created_at TEXT DEFAULT CURRENT_TIMESTAMP *)
}.

Record QuizResult := {
  qr_id : string;                  (* id TEXT PRIMARY KEY *)
  qr_session_id : option string;   (* session_id TEXT *)
  qr_question : string;            (* question TEXT NOT NULL *)
  qr_user_answer : option string;  (* user_answer TEXT *)
  qr_correct_answer : string;      (* correct_answer TEXT NOT NULL *)
  qr_is_correct : Z;               (* is_correct INTEGER DEFAULT 0 *)
  qr_explanation : option string;  (* explanation TEXT *)
  qr_created_at : string           (* created_at TEXT DEFAULT CURRENT_TIMESTAMP *)
}.

Inductive Table := study_sessions_table | quiz_results_table.

#[global] Instance Table_eq_dec : EqDecision Table.
Proof. solve_decision. Defined.

(** What one execution of [agent.sql] did; kept as a journal next to the
    tables so that statements about "successful inserts" have something to
    count. *)
Inductive SqlEvent :=
  | Inserted (t : Table)
  | InsertFailed (t : Table)
  | Selected
  | SelectFailed.

#[global] Instance SqlEvent_eq_dec : EqDecision SqlEvent.
Proof. solve_decision. Defined.

(** The state one agent instance owns: its two tables, how many ids and
    statements it has used so far, what was written to [console.error],
    and the journal. *)
Record World := {
  study_sessions : list StudySession;
  quiz_results : list QuizResult;
  ids_drawn : nat;
  statements_run : nat;
  console : list (string * string);
  journal : list SqlEvent
}.

Definition empty_world : World :=
  {| study_sessions := []; quiz_results := []; ids_drawn := 0%nat;
     statements_run := 0%nat; console := []; journal := [] |}.

(** What the tools cannot decide themselves: the ids [generateId] hands
    out, which statements the storage rejects, the clock behind
    [CURRENT_TIMESTAMP], and how the engine prints a number inside a
    template literal. *)
Record Runtime := {
  generateId_nth : nat -> string;
  sql_fails_nth : nat -> bool;
  current_timestamp_nth : nat -> string;
  Number_toString : Js.number -> string
}.

(** ** Computations that read and write the world and may throw *)

Inductive Outcome (A : Type) :=
  | Returned (a : A)
  | Thrown (error : string).
Arguments Returned {A} a.
Arguments Thrown {A} error.

Definition M (A : Type) : Type := World -> Outcome A * World.

#[global] Instance M_ret : MRet M := fun A a w => (Returned a, w).

#[global] Instance M_bind : MBind M := fun A B k m w =>
  match m w with
  | (Returned a, w') => k a w'
  | (Thrown e, w') => (Thrown e, w')
  end.

(** [try { body } catch (error) { handler }] *)
Definition try_catch {A} (body : M A) (handler : string -> M A) : M A :=
  fun w =>
    match body w with
    | (Returned a, w') => (Returned a, w')
    | (Thrown e, w') => handler e w'
    end.

(** [console.error(label, error)] *)
Definition console_error (label error : string) : M unit :=
  fun w =>
    (Returned tt,
     {| study_sessions := study_sessions w; quiz_results := quiz_results w;
        ids_drawn := ids_drawn w; statements_run := statements_run w;
        console := console w ++ [(label, error)]; journal := journal w |}).

(** ** World updates *)

Definition after_statement (ev : SqlEvent) (w : World) : World :=
  {| study_sessions := study_sessions w; quiz_results := quiz_results w;
     ids_drawn := ids_drawn w; statements_run := S (statements_run w);
     console := console w; journal := journal w ++ [ev] |}.

Definition add_study_session (row : StudySession) (w : World) : World :=
  {| study_sessions := study_sessions w ++ [row]; quiz_results := quiz_results w;
     ids_drawn := ids_drawn w; statements_run := statements_run w;
     console := console w; journal := journal w |}.

Definition add_quiz_result (row : QuizResult) (w : World) : World :=
  {| study_sessions := study_sessions w; quiz_results := quiz_results w ++ [row];
     ids_drawn := ids_drawn w; statements_run := statements_run w;
     console := console w; journal := journal w |}.

(** ** Rows the SELECT statements of [getStudyStats] return *)

Record CountRow := { count : Z }.
Record TopicRow := { tr_topic : string; tr_session_count : Z }.
Record RecentRow := {
  rr_topic : string; rr_created_at : string;
  rr_questions_answered : Z; rr_correct_count : Z
}.
(** [SUM] over no rows is NULL, hence the option. *)
Record TopicTotalsRow := { total : Z; correct : option Z }.

Definition is_correct_row (r : QuizResult) : bool := qr_is_correct r =? 1.

Definition belongs_to (s : StudySession) (r : QuizResult) : bool :=
  bool_decide (qr_session_id r = Some (ss_id s)).

Definition count_where {A} (p : A -> bool) (l : list A) : Z :=
  Z.of_nat (length (List.filter p l)).

(** A stable insertion sort, largest first, for [ORDER BY ... DESC].  SQL
    leaves the order of rows with equal keys open; the model keeps them in
    the order they are met. *)
Fixpoint insert_desc {A} (lt : A -> A -> bool) (x : A) (l : list A) : list A :=
  match l with
  | [] => [x]
  | y :: l' => if lt x y then y :: insert_desc lt x l' else x :: l
  end.

Definition order_by_desc {A} (lt : A -> A -> bool) (l : list A) : list A :=
  foldr (insert_desc lt) [] l.

(** [SELECT COUNT( * ) as count FROM quiz_results] *)
Definition select_total_questions (w : World) : list CountRow :=
  [ {| count := Z.of_nat (length (quiz_results w)) |} ].

(** [SELECT COUNT( * ) as count FROM quiz_results WHERE is_correct = 1] *)
Definition select_correct_answers (w : World) : list CountRow :=
  [ {| count := count_where is_correct_row (quiz_results w) |} ].

(** [SELECT DISTINCT topic, COUNT( * ) as session_count FROM study_sessions
     GROUP BY topic ORDER BY session_count DESC] *)
Definition select_topics_studied (w : World) : list TopicRow :=
  let topics := ss_topic <$> study_sessions w in
  order_by_desc (fun a b => tr_session_count a <? tr_session_count b)
    ((fun t => {| tr_topic := t;
                  tr_session_count := count_where (String.eqb t) topics |})
       <$> remove_dups topics).

(** [SELECT s.topic, s.created_at, COUNT(r.id) as questions_answered,
            SUM(CASE WHEN r.is_correct = 1 THEN 1 ELSE 0 END) as correct_count
     FROM study_sessions s LEFT JOIN quiz_results r ON s.id = r.session_id
     GROUP BY s.id ORDER BY s.created_at DESC LIMIT 5]
    One group per session row: [s.id] is the primary key. *)
Definition select_recent_sessions (w : World) : list RecentRow :=
  take 5
    (order_by_desc (fun a b => String.ltb (rr_created_at a) (rr_created_at b))
       ((fun s =>
           let mine := List.filter (belongs_to s) (quiz_results w) in
           {| rr_topic := ss_topic s; rr_created_at := ss_created_at s;
              rr_questions_answered := Z.of_nat (length mine);
              rr_correct_count := count_where is_correct_row mine |})
          <$> study_sessions w)).

(** The rows of [quiz_results r JOIN study_sessions s ON r.session_id = s.id
    WHERE s.topic LIKE pattern], one per matching pair. *)
Definition joined_like (pattern : string) (w : World) : list (QuizResult * StudySession) :=
  r ← quiz_results w;
  s ← List.filter (fun s => belongs_to s r && like pattern (ss_topic s)) (study_sessions w);
  [(r, s)].

(** [SELECT COUNT( * ) as total,
            SUM(CASE WHEN is_correct = 1 THEN 1 ELSE 0 END) as correct
     FROM quiz_results r JOIN study_sessions s ON r.session_id = s.id
     WHERE s.topic LIKE pattern] *)
Definition select_topic_totals (pattern : string) (w : World) : list TopicTotalsRow :=
  let rows := joined_like pattern w in
  [ {| total := Z.of_nat (length rows);
       correct := match rows with
                  | [] => None
                  | _ :: _ => Some (count_where (fun rs => is_correct_row rs.1) rows)
                  end |} ].

(** [rows[0] || fallback] *)
Definition first_or {A} (rows : list A) (fallback : A) : A :=
  match rows with [] => fallback | row :: _ => row end.

(** [n || 0] for a column that may be NULL. *)
Definition or_zero (n : option Z) : Z :=
  match n with None => 0 | Some z => z end.

Definition storage_error : string := "storage failure".
Definition unique_error (t : string) : string := "UNIQUE constraint failed: " +:+ t +:+ ".id".

(** ** Tool inputs (after schema validation) and outputs *)

Inductive Difficulty := easy | medium | hard.

Definition Difficulty_toString (d : Difficulty) : string :=
  match d with easy => "easy" | medium => "medium" | hard => "hard" end.

Record GenerateQuizInput := {
  gq_topic : string;
  gq_difficulty : Difficulty;
  gq_numberOfQuestions : Js.number
}.

Record GenerateQuizOutput := {
  gqo_sessionId : string;
  gqo_topic : string;
  gqo_difficulty : Difficulty;
  gqo_numberOfQuestions : Js.number;
  gqo_instruction : string
}.

Record CheckAnswerInput := {
  ca_sessionId : string;
  ca_question : string;
  ca_studentAnswer : string;
  ca_correctAnswer : string;
  ca_isCorrect : bool
}.

Record CheckAnswerOutput := {
  cao_resultId : string;
  cao_isCorrect : bool;
  cao_studentAnswer : string;
  cao_correctAnswer : string;
  cao_instruction : string
}.

Record GetStudyStatsInput := { gs_topic : option string }.

Record OverallStats := {
  totalQuestionsAnswered : Z;
  overall_correctAnswers : Z;
  overall_accuracy : Js.number
}.

Record TopicStudied := { topic : string; sessionCount : Z }.

Record RecentSession := {
  recent_topic : string;
  date : string;
  questionsAnswered : Z;
  correctCount : Z;
  recent_accuracy : Js.number
}.

Record TopicStats := {
  ts_topic : string;
  totalQuestions : Z;
  ts_correctAnswers : Z;
  ts_accuracy : Js.number
}.

Inductive GetStudyStatsOutput :=
  | Stats (overall : OverallStats) (topicsStudied : list TopicStudied)
          (recentSessions : list RecentSession) (topicStats : option TopicStats)
          (instruction : string)
  | StatsError (error instruction : string).

Record SaveProgressInput := {
  sp_sessionId : string;
  sp_question : string;
  sp_userAnswer : string;
  sp_correctAnswer : string;
  sp_isCorrect : bool;
  sp_explanation : option string
}.

(** [{success: true, resultId, message}] or [{success: false, error}]. *)
Inductive SaveProgressOutput :=
  | ProgressSaved (resultId message : string)
  | ProgressNotSaved (error : string).


(** ** The tools *)

Section Tools.

Context (rt : Runtime).

(** [generateId()] *)
Definition generateId : M string := fun w =>
  (Returned (generateId_nth rt (ids_drawn w)),
   {| study_sessions := study_sessions w; quiz_results := quiz_results w;
      ids_drawn := S (ids_drawn w); statements_run := statements_run w;
      console := console w; journal := journal w |}).

(** [INSERT INTO study_sessions (id, topic) VALUES (id, topic)].  The
    statement throws when the storage rejects it or when the primary key
    is already taken; otherwise it appends one row. *)
Definition insert_study_session (id topic : string) : M unit := fun w =>
  let n := statements_run w in
  if sql_fails_nth rt n then
    (Thrown storage_error, after_statement (InsertFailed study_sessions_table) w)
  else if bool_decide (id ∈ ss_id <$> study_sessions w) then
    (Thrown (unique_error "study_sessions"),
     after_statement (InsertFailed study_sessions_table) w)
  else
    (Returned tt,
     after_statement (Inserted study_sessions_table)
       (add_study_session
          {| ss_id := id; ss_topic := topic;
             ss_created_at := current_timestamp_nth rt n |} w)).

(** [INSERT INTO quiz_results (id, session_id, question, user_answer,
     correct_answer, is_correct [, explanation]) VALUES (...)].  The
    foreign key on [session_id] is not checked. *)
Definition insert_quiz_result
    (id session_id question user_answer correct_answer : string)
    (is_correct : Z) (explanation : option string) : M unit := fun w =>
  let n := statements_run w in
  if sql_fails_nth rt n then
    (Thrown storage_error, after_statement (InsertFailed quiz_results_table) w)
  else if bool_decide (id ∈ qr_id <$> quiz_results w) then
    (Thrown (unique_error "quiz_results"),
     after_statement (InsertFailed quiz_results_table) w)
  else
    (Returned tt,
     after_statement (Inserted quiz_results_table)
       (add_quiz_result
          {| qr_id := id; qr_session_id := Some session_id;
             qr_question := question; qr_user_answer := Some user_answer;
             qr_correct_answer := correct_answer; qr_is_correct := is_correct;
             qr_explanation := explanation;
             qr_created_at := current_timestamp_nth rt n |} w)).

(** A SELECT statement: the rows [query] finds, unless the storage
    rejects the statement. *)
Definition select {A} (query : World -> list A) : M (list A) := fun w =>
  if sql_fails_nth rt (statements_run w) then
    (Thrown storage_error, after_statement SelectFailed w)
  else
    (Returned (query w), after_statement Selected w).

Definition generateQuiz_instruction
    (numberOfQuestions : Js.number) (difficulty : Difficulty) (topic : string) : string :=
  "Generate " +:+ Number_toString rt numberOfQuestions +:+ " " +:+
  Difficulty_toString difficulty +:+ " quiz questions about " +:+
  dquote +:+ topic +:+ dquote +:+ "." +:+ nl +:+
  "      Mix question types: multiple choice, true/false, and short answer." +:+ nl +:+
  "      For multiple choice, always provide 4 options (A, B, C, D)." +:+ nl +:+
  "      Present questions ONE AT A TIME and wait for the student's answer before proceeding." +:+ nl +:+
  "      After each answer, use the checkAnswer tool to evaluate and saveProgress to record the result.".

Definition generateQuiz (input : GenerateQuizInput) : M GenerateQuizOutput :=
  let topic := gq_topic input in
  let difficulty := gq_difficulty input in
  let numberOfQuestions := gq_numberOfQuestions input in
  sessionId ← generateId;
  try_catch
    (insert_study_session sessionId topic)
    (fun error => console_error "Error creating study session:" error);;
  mret {| gqo_sessionId := sessionId;
          gqo_topic := topic;
          gqo_difficulty := difficulty;
          gqo_numberOfQuestions := numberOfQuestions;
          gqo_instruction := generateQuiz_instruction numberOfQuestions difficulty topic |}.

Definition checkAnswer (input : CheckAnswerInput) : M CheckAnswerOutput :=
  let sessionId := ca_sessionId input in
  let question := ca_question input in
  let studentAnswer := ca_studentAnswer input in
  let correctAnswer := ca_correctAnswer input in
  let isCorrect := ca_isCorrect input in
  resultId ← generateId;
  let isCorrectInt := if isCorrect then 1 else 0 in
  try_catch
    (insert_quiz_result resultId sessionId question studentAnswer correctAnswer
       isCorrectInt None)
    (fun error => console_error "Error saving quiz result:" error);;
  mret {| cao_resultId := resultId;
          cao_isCorrect := isCorrect;
          cao_studentAnswer := studentAnswer;
          cao_correctAnswer := correctAnswer;
          cao_instruction :=
            if isCorrect
            then "The student got it right! Congratulate them and provide any additional interesting facts about this topic."
            else "The student got it wrong. Kindly explain why the correct answer is right and help them understand the concept better. Offer a memory trick if applicable." |}.

Definition topic_pattern (topic : string) : string := "%" +:+ topic +:+ "%".

Definition getStudyStats (input : GetStudyStatsInput) : M GetStudyStatsOutput :=
  let topic := gs_topic input in
  try_catch
    (rows ← select select_total_questions;
     let totalQuestions := first_or rows {| count := 0 |} in
     rows ← select select_correct_answers;
     let correctAnswers := first_or rows {| count := 0 |} in
     topicsStudied ← select select_topics_studied;
     recentSessions ← select select_recent_sessions;
     topicStats ←
       match topic with
       | Some topic =>
           if Js.truthy topic then
             let topicPattern := topic_pattern topic in
             rows ← select (select_topic_totals topicPattern);
             let topicResults := first_or rows {| total := 0; correct := Some 0 |} in
             mret (Some {| ts_topic := topic;
                           totalQuestions := total topicResults;
                           ts_correctAnswers := or_zero (correct topicResults);
                           ts_accuracy :=
                             accuracy (or_zero (correct topicResults))
                                      (total topicResults) |})
           else mret None
       | None => mret None
       end;
     let overallAccuracy := accuracy (count correctAnswers) (count totalQuestions) in
     mret (Stats
             {| totalQuestionsAnswered := count totalQuestions;
                overall_correctAnswers := count correctAnswers;
                overall_accuracy := overallAccuracy |}
             ((fun t => {| topic := tr_topic t; sessionCount := tr_session_count t |})
                <$> topicsStudied)
             ((fun s => {| recent_topic := rr_topic s;
                           date := rr_created_at s;
                           questionsAnswered := rr_questions_answered s;
                           correctCount := rr_correct_count s;
                           recent_accuracy :=
                             accuracy (rr_correct_count s) (rr_questions_answered s) |})
                <$> recentSessions)
             topicStats
             "Present these statistics in a friendly, encouraging way. Highlight improvements and suggest topics that might need more practice."))
    (fun error =>
       console_error "Error fetching study stats:" error;;
       mret (StatsError "Unable to fetch study statistics"
               "Let the student know you couldn't retrieve their stats, but encourage them to keep studying!")).

Definition saveProgress (input : SaveProgressInput) : M SaveProgressOutput :=
  let sessionId := sp_sessionId input in
  let question := sp_question input in
  let userAnswer := sp_userAnswer input in
  let correctAnswer := sp_correctAnswer input in
  let isCorrect := sp_isCorrect input in
  let explanation := sp_explanation input in
  resultId ← generateId;
  let isCorrectInt := if isCorrect then 1 else 0 in
  let explanationValue :=
    match explanation with
    | Some text => if Js.truthy text then Some text else None
    | None => None
    end in
  try_catch
    (insert_quiz_result resultId sessionId question userAnswer correctAnswer
       isCorrectInt explanationValue;;
     mret (ProgressSaved resultId "Progress saved successfully"))
    (fun error =>
       console_error "Error saving progress:" error;;
       mret (ProgressNotSaved "Failed to save progress")).

End Tools.

(** ** Input schemas

    The values a tool call can carry before validation, and the [zod]
    combinators the four [inputSchema]s are built from. *)

#[warnings="-register-all"] Inductive JsVal :=
  | JsUndefined
  | JsNull
  | JsBool (b : bool)
  | JsNumber (n : Js.number)
  | JsString (s : string)
  | JsArray (items : list JsVal)
  | JsObject (fields : list (string * JsVal)).

(** [obj[key]]: [undefined] when the key is absent. *)
Fixpoint get (key : string) (fields : list (string * JsVal)) : JsVal :=
  match fields with
  | [] => JsUndefined
  | (k, v) :: rest => if String.eqb k key then v else get key rest
  end.

Module Zod.

(** A schema parses a value or rejects it. *)
Definition Schema (A : Type) : Type := JsVal -> option A.

(** [z.string()] *)
Definition string : Schema String.string := fun v =>
  match v with JsString s => Some s | _ => None end.

(** [z.boolean()] *)
Definition boolean : Schema bool := fun v =>
  match v with JsBool b => Some b | _ => None end.

(** [z.number().min(lo).max(hi)]: a number that is not NaN, not below
    [lo] and not above [hi]. *)
Definition number_min_max (lo hi : Z) : Schema Js.number := fun v =>
  match v with
  | JsNumber n =>
      if Js.is_nan n then None
      else if Js.lt n (Js.of_Z lo) then None
      else if Js.gt n (Js.of_Z hi) then None
      else Some n
  | _ => None
  end.

(** [z.enum(["easy", "medium", "hard"])] *)
Definition difficulty : Schema Difficulty := fun v =>
  match v with
  | JsString s =>
      if String.eqb s "easy" then Some easy
      else if String.eqb s "medium" then Some medium
      else if String.eqb s "hard" then Some hard
      else None
  | _ => None
  end.

(** [inner.default(d)]: [undefined] is replaced by [d] before parsing. *)
Definition default {A} (inner : Schema A) (d : JsVal) : Schema A := fun v =>
  match v with JsUndefined => inner d | _ => inner v end.

(** [inner.optional()] *)
Definition optional {A} (inner : Schema A) : Schema (option A) := fun v =>
  match v with JsUndefined => Some None | _ => Some <$> inner v end.

End Zod.

Definition generateQuiz_inputSchema : Zod.Schema GenerateQuizInput := fun v =>
  match v with
  | JsObject fields =>
      topic ← Zod.string (get "topic" fields);
      difficulty ← Zod.default Zod.difficulty (JsString "medium") (get "difficulty" fields);
      numberOfQuestions ←
        Zod.default (Zod.number_min_max 1 10) (JsNumber (Js.of_Z 5))
          (get "numberOfQuestions" fields);
      Some {| gq_topic := topic; gq_difficulty := difficulty;
              gq_numberOfQuestions := numberOfQuestions |}
  | _ => None
  end.

Definition checkAnswer_inputSchema : Zod.Schema CheckAnswerInput := fun v =>
  match v with
  | JsObject fields =>
      sessionId ← Zod.string (get "sessionId" fields);
      question ← Zod.string (get "question" fields);
      studentAnswer ← Zod.string (get "studentAnswer" fields);
      correctAnswer ← Zod.string (get "correctAnswer" fields);
      isCorrect ← Zod.boolean (get "isCorrect" fields);
      Some {| ca_sessionId := sessionId; ca_question := question;
              ca_studentAnswer := studentAnswer; ca_correctAnswer := correctAnswer;
              ca_isCorrect := isCorrect |}
  | _ => None
  end.

Definition getStudyStats_inputSchema : Zod.Schema GetStudyStatsInput := fun v =>
  match v with
  | JsObject fields =>
      topic ← Zod.optional Zod.string (get "topic" fields);
      Some {| gs_topic := topic |}
  | _ => None
  end.

Definition saveProgress_inputSchema : Zod.Schema SaveProgressInput := fun v =>
  match v with
  | JsObject fields =>
      sessionId ← Zod.string (get "sessionId" fields);
      question ← Zod.string (get "question" fields);
      userAnswer ← Zod.string (get "userAnswer" fields);
      correctAnswer ← Zod.string (get "correctAnswer" fields);
      isCorrect ← Zod.boolean (get "isCorrect" fields);
      explanation ← Zod.optional Zod.string (get "explanation" fields);
      Some {| sp_sessionId := sessionId; sp_question := question;
              sp_userAnswer := userAnswer; sp_correctAnswer := correctAnswer;
              sp_isCorrect := isCorrect; sp_explanation := explanation |}
  | _ => None
  end.

(** ** Calling a tool by name ([export const tools]) *)

Inductive ToolName :=
  | generateQuiz_tool
  | checkAnswer_tool
  | getStudyStats_tool
  | saveProgress_tool.

#[global] Instance ToolName_eq_dec : EqDecision ToolName.
Proof. solve_decision. Defined.

Inductive ToolOutput :=
  | GenerateQuizOut (o : GenerateQuizOutput)
  | CheckAnswerOut (o : CheckAnswerOutput)
  | GetStudyStatsOut (o : GetStudyStatsOutput)
  | SaveProgressOut (o : SaveProgressOutput)
  | InvalidToolInput.

(** The keys of the object literal a tool returns. *)
Definition output_keys (o : ToolOutput) : list string :=
  match o with
  | GenerateQuizOut _ =>
      ["sessionId"; "topic"; "difficulty"; "numberOfQuestions"; "instruction"]
  | CheckAnswerOut _ =>
      ["resultId"; "isCorrect"; "studentAnswer"; "correctAnswer"; "instruction"]
  | GetStudyStatsOut (Stats _ _ _ _ _) =>
      ["overall"; "topicsStudied"; "recentSessions"; "topicStats"; "instruction"]
  | GetStudyStatsOut (StatsError _ _) => ["error"; "instruction"]
  | SaveProgressOut (ProgressSaved _ _) => ["success"; "resultId"; "message"]
  | SaveProgressOut (ProgressNotSaved _) => ["success"; "error"]
  | InvalidToolInput => []
  end.

(** A result tells its reader that the storage failed when it carries an
    [error] entry. *)
Definition reports_failure (o : ToolOutput) : bool :=
  bool_decide ("error" ∈ output_keys o).

Section Calls.

Context (rt : Runtime).

(** One tool call as the generation loop performs it: the input is
    parsed with the tool's [inputSchema]; [execute] runs on the parsed
    value only, and a rejected input is answered with a tool error. *)
Definition validated {A B} (schema : Zod.Schema A) (execute : A -> M B)
    (wrap : B -> ToolOutput) (input : JsVal) : M ToolOutput :=
  match schema input with
  | Some args => out ← execute args; mret (wrap out)
  | None => mret InvalidToolInput
  end.

Definition call_tool (name : ToolName) (input : JsVal) : M ToolOutput :=
  match name with
  | generateQuiz_tool =>
      validated generateQuiz_inputSchema (generateQuiz rt) GenerateQuizOut input
  | checkAnswer_tool =>
      validated checkAnswer_inputSchema (checkAnswer rt) CheckAnswerOut input
  | getStudyStats_tool =>
      validated getStudyStats_inputSchema (getStudyStats rt) GetStudyStatsOut input
  | saveProgress_tool =>
      validated saveProgress_inputSchema (saveProgress rt) SaveProgressOut input
  end.

(** A sequence of tool calls, one after the other, each on the world the
    previous one left. *)
Fixpoint run_calls (calls : list (ToolName * JsVal)) (w : World)
    : list (Outcome ToolOutput) * World :=
  match calls with
  | [] => ([], w)
  | (name, input) :: rest =>
      let '(out, w1) := call_tool name input w in
      let '(outs, w2) := run_calls rest w1 in
      (out :: outs, w2)
  end.

End Calls.

(** ** The generation loop and its step budget ([onChatMessage]) *)









Section Turn.

Context (rt : Runtime).



End Turn.

(** ** The message sanitizer ([cleanupMessages]) *)

(** Modelled from the spec: the message type comes from the [ai] package.
    Of a message the sanitizer looks at the tool calls it holds and at
    whether a result was recorded for each. *)
Inductive MessagePart :=
  | TextPart (text : string)
  | ToolCallPart (toolCallId : string) (name : string) (input : JsVal)
                 (result : option JsVal).

Record UIMessage := {
  msg_id : string;
  msg_role : string;
  msg_parts : list MessagePart
}.

(** A tool call that was requested and has no recorded result. *)
Definition dangling (p : MessagePart) : bool :=
  match p with
  | ToolCallPart _ _ _ None => true
  | ToolCallPart _ _ _ (Some _) | TextPart _ => false
  end.

Definition completed (m : UIMessage) : Prop :=
  forallb (fun p => negb (dangling p)) (msg_parts m) = true.

#[global] Instance completed_dec m : Decision (completed m).
Proof. unfold completed. apply _. Defined.

(** Modelled from the spec: [cleanupMessages] lives in [src/utils.ts],
    which is not among the sources.  The spec has it strip from the history
    the messages that represent a tool invocation that began but never
    completed, and leave everything else as it is. *)
Definition cleanupMessages (messages : list UIMessage) : list UIMessage :=
  filter completed messages.

(** ** Vocabulary of the statements *)

(** How many rows the journal says were inserted into a table. *)
Definition successful_inserts (t : Table) (events : list SqlEvent) : nat :=
  length (filter (fun ev => ev = Inserted t) events).

(** The storage accepts the next [n] statements issued from world [w]. *)
Definition storage_up (rt : Runtime) (w : World) (n : nat) : Prop :=
  forall k, (k < n)%nat -> sql_fails_nth rt (statements_run w + k) = false.

(** The two strings have the same characters up to ASCII case. *)
Fixpoint same_nocase (a b : string) : bool :=
  match a, b with
  | EmptyString, EmptyString => true
  | String c a', String d b' => like_char c d && same_nocase a' b'
  | _, _ => false
  end.

(** [needle] occurs in [hay] as a contiguous run, up to ASCII case. *)
Definition contains_nocase (needle hay : string) : Prop :=
  exists before mid after,
    hay = before +:+ mid +:+ after /\ same_nocase needle mid = true.

Fixpoint no_wildcard (s : string) : bool :=
  match s with
  | EmptyString => true
  | String c s' => negb (is_wildcard c) && no_wildcard s'
  end.

(** A result row whose [session_id] names no row of [study_sessions]. *)
Definition orphaned (w : World) (r : QuizResult) : Prop :=
  forall s, s ∈ study_sessions w -> qr_session_id r <> Some (ss_id s).

(** [Number.isInteger(x)] *)
Definition is_integer (x : Js.number) : bool :=
  match x with
  | S754_zero _ => true
  | S754_finite _ m e => (0 <=? e) || (Z.pos m mod 2 ^ (- e) =? 0)
  | S754_infinity _ | S754_nan => false
  end.

(** ** Concrete runtimes used in the examples *)

(** Integral numbers in decimal; enough for the inputs used below. *)
Definition print_number (x : Js.number) : string :=
  match x with
  | S754_zero _ => "0"
  | S754_finite s m e =>
      if is_integer x then
        let magnitude := if 0 <=? e then Z.pos m * 2 ^ e else Z.pos m / 2 ^ (- e) in
        pretty (if s then - magnitude else magnitude)
      else "?"
  | S754_infinity _ | S754_nan => "?"
  end.

(** Ids [id0], [id1], ...; a storage that never fails. *)
Definition reliable : Runtime :=
  {| generateId_nth := fun n => "id" +:+ pretty n;
     sql_fails_nth := fun _ => false;
     current_timestamp_nth := fun n => "t" +:+ pretty n;
     Number_toString := print_number |}.

(** The same runtime over a storage that rejects every statement. *)
Definition unreachable : Runtime :=
  {| generateId_nth := generateId_nth reliable;
     sql_fails_nth := fun _ => true;
     current_timestamp_nth := current_timestamp_nth reliable;
     Number_toString := print_number |}.

(** [w'] holds every row of [w], in the same places and unchanged,
    followed by as many new rows per table as the journal records
    successful inserts since [w]. *)
Definition grown_from (w w' : World) : Prop :=
  exists new_sessions new_results events,
    study_sessions w' = study_sessions w ++ new_sessions /\
    quiz_results w' = quiz_results w ++ new_results /\
    journal w' = journal w ++ events /\
    length new_sessions = successful_inserts study_sessions_table events /\
    length new_results = successful_inserts quiz_results_table events.

(** A computation is append-only when every run of it leaves a world grown
    from the one it started in. *)
Definition append_only {A} (m : M A) : Prop := forall w, grown_from w (m w).2.

(** The insert of [generateQuiz] / of [checkAnswer] and [saveProgress] is
    rejected in world [w] for the id [id]. *)
Definition session_insert_rejected (rt : Runtime) (id : string) (w : World) : bool :=
  sql_fails_nth rt (statements_run w) || bool_decide (id ∈ ss_id <$> study_sessions w).

Definition result_insert_rejected (rt : Runtime) (id : string) (w : World) : bool :=
  sql_fails_nth rt (statements_run w) || bool_decide (id ∈ qr_id <$> quiz_results w).

(** The input of [saveProgress] with its optional explanation replaced. *)
Definition set_explanation (e : option string) (i : SaveProgressInput) : SaveProgressInput :=
  {| sp_sessionId := sp_sessionId i; sp_question := sp_question i;
     sp_userAnswer := sp_userAnswer i; sp_correctAnswer := sp_correctAnswer i;
     sp_isCorrect := sp_isCorrect i; sp_explanation := e |}.

(** The row a successful [saveProgress] on [i] adds in world [w], with
    [explanation] in the explanation column. *)
Definition saved_row (rt : Runtime) (i : SaveProgressInput)
    (explanation : option string) (w : World) : QuizResult :=
  {| qr_id := generateId_nth rt (ids_drawn w);
     qr_session_id := Some (sp_sessionId i);
     qr_question := sp_question i;
     qr_user_answer := Some (sp_userAnswer i);
     qr_correct_answer := sp_correctAnswer i;
     qr_is_correct := if sp_isCorrect i then 1 else 0;
     qr_explanation := explanation;
     qr_created_at := current_timestamp_nth rt (statements_run w) |}.

(** The last sentence of the claim about [saveProgress], read over all
    four tools: a result that reports a storage failure can only come from
    [saveProgress]. *)
Definition only_saveProgress_reports_failure : Prop :=
  forall rt name input w o w',
    call_tool rt name input w = (Returned o, w') ->
    reports_failure o = true -> name = saveProgress_tool.

(** [2.5] *)
Definition two_and_a_half : Js.number := Js.div (Js.of_Z 5) (Js.of_Z 2).

(** A number the schema [z.number().min(1).max(10)] lets through: not
    NaN, not below 1, not above 10. *)
Definition between_1_and_10 (n : Js.number) : Prop :=
  Js.is_nan n = false /\ Js.lt n (Js.of_Z 1) = false /\ Js.gt n (Js.of_Z 10) = false.

(** The aggregates [getStudyStats] reports when no statement fails. *)
Definition overall_of (w : World) : OverallStats :=
  {| totalQuestionsAnswered := Z.of_nat (length (quiz_results w));
     overall_correctAnswers := count_where is_correct_row (quiz_results w);
     overall_accuracy :=
       accuracy (count_where is_correct_row (quiz_results w))
                (Z.of_nat (length (quiz_results w))) |}.

Definition topicStats_of (topic : option string) (w : World) : option TopicStats :=
  match topic with
  | Some t =>
      if Js.truthy t then
        let rows := joined_like (topic_pattern t) w in
        Some {| ts_topic := t;
                totalQuestions := Z.of_nat (length rows);
                ts_correctAnswers := count_where (fun rs => is_correct_row rs.1) rows;
                ts_accuracy :=
                  accuracy (count_where (fun rs => is_correct_row rs.1) rows)
                           (Z.of_nat (length rows)) |}
      else None
  | None => None
  end.

(** The accuracy agrees with the exact percentage, or the percentage is an
    exact tie and the accuracy is the integer just below it. *)
Definition near_exact (correct total : Z) : bool :=
  bool_decide (accuracy correct total = Js.of_Z (exact_percentage correct total)) ||
  ((200 * correct) mod (2 * total) =? total) &&
  bool_decide (accuracy correct total = Js.of_Z (exact_percentage correct total - 1)).

(** Calls used to build example worlds. *)
Definition quiz_call (topic : string) : ToolName * JsVal :=
  (generateQuiz_tool, JsObject [("topic", JsString topic)]).

Definition answer_in (sessionId : string) (isCorrect : bool) : ToolName * JsVal :=
  (checkAnswer_tool,
   JsObject [("sessionId", JsString sessionId); ("question", JsString "q");
             ("studentAnswer", JsString "a"); ("correctAnswer", JsString "b");
             ("isCorrect", JsBool isCorrect)]).

(** Forty answers recorded through [checkAnswer], twenty-three of them
    correct. *)
Definition forty_answers : list (ToolName * JsVal) :=
  replicate 23 (answer_in "s" true) ++ replicate 17 (answer_in "s" false).

(** Two Python sessions and a cooking session, each with answers. *)
Definition python_study : list (ToolName * JsVal) :=
  [ quiz_call "Python Basics"; quiz_call "Advanced Python"; quiz_call "Cooking";
    answer_in "id0" true; answer_in "id0" false; answer_in "id1" true;
    answer_in "id2" true ].

Definition python_world : World := (run_calls reliable python_study empty_world).2.

(** One answer recorded for a session id that was never created. *)
Definition orphan_world : World :=
  (run_calls reliable [answer_in "nowhere" true] empty_world).2.

(** The primary keys of both tables are pairwise distinct. *)
Definition unique_keys (w : World) : Prop :=
  NoDup (ss_id <$> study_sessions w) /\ NoDup (qr_id <$> quiz_results w).

(** A computation keeps a property of the world. *)
Definition keeps {A} (P : World -> Prop) (m : M A) : Prop :=
  forall w, P w -> P (m w).2.

(** ** [initializeDatabase] ([src/server.ts])

    The agent's storage before any table is known to exist: a table is
    absent or holds rows.  [statements_issued] numbers the statements so
    that the runtime can reject one. *)

Record Storage := {
  sessions_table : option (list StudySession);
  results_table : option (list QuizResult);
  statements_issued : nat
}.

(** The agent object: the private flag [dbInitialized] and the storage. *)
Record Chat := {
  dbInitialized : bool;
  storage : Storage
}.

(** [CREATE TABLE IF NOT EXISTS study_sessions (...)]: an absent table is
    created empty, a present one is left alone; the statement throws when
    the storage rejects it. *)
Definition create_study_sessions (rt : Runtime) (st : Storage) : Outcome unit * Storage :=
  if sql_fails_nth rt (statements_issued st) then
    (Thrown storage_error,
     {| sessions_table := sessions_table st; results_table := results_table st;
        statements_issued := S (statements_issued st) |})
  else
    (Returned tt,
     {| sessions_table := Some (default [] (sessions_table st));
        results_table := results_table st;
        statements_issued := S (statements_issued st) |}).

(** [CREATE TABLE IF NOT EXISTS quiz_results (...)] *)
Definition create_quiz_results (rt : Runtime) (st : Storage) : Outcome unit * Storage :=
  if sql_fails_nth rt (statements_issued st) then
    (Thrown storage_error,
     {| sessions_table := sessions_table st; results_table := results_table st;
        statements_issued := S (statements_issued st) |})
  else
    (Returned tt,
     {| sessions_table := sessions_table st;
        results_table := Some (default [] (results_table st));
        statements_issued := S (statements_issued st) |}).

(** [initializeDatabase()]: nothing when the flag is set; otherwise the two
    statements, outside any [try], and then the flag. *)
Definition initializeDatabase (rt : Runtime) (c : Chat) : Outcome unit * Chat :=
  if dbInitialized c then (Returned tt, c)
  else
    match create_study_sessions rt (storage c) with
    | (Thrown e, st1) => (Thrown e, {| dbInitialized := false; storage := st1 |})
    | (Returned _, st1) =>
        match create_quiz_results rt st1 with
        | (Thrown e, st2) => (Thrown e, {| dbInitialized := false; storage := st2 |})
        | (Returned _, st2) => (Returned tt, {| dbInitialized := true; storage := st2 |})
        end
    end.

(** ** More vocabulary *)

(** The payload lists of [getStudyStats] when no statement fails. *)
Definition topicsStudied_of (w : World) : list TopicStudied :=
  (fun t => {| topic := tr_topic t; sessionCount := tr_session_count t |})
    <$> select_topics_studied w.

Definition recentSessions_of (w : World) : list RecentSession :=
  (fun s => {| recent_topic := rr_topic s;
               date := rr_created_at s;
               questionsAnswered := rr_questions_answered s;
               correctCount := rr_correct_count s;
               recent_accuracy :=
                 accuracy (rr_correct_count s) (rr_questions_answered s) |})
    <$> select_recent_sessions w.

(** The entry of [recentSessions] that describes session [s]. *)
Definition recent_entry (w : World) (s : StudySession) : RecentSession :=
  let mine := List.filter (belongs_to s) (quiz_results w) in
  {| recent_topic := ss_topic s;
     date := ss_created_at s;
     questionsAnswered := Z.of_nat (length mine);
     correctCount := count_where is_correct_row mine;
     recent_accuracy :=
       accuracy (count_where is_correct_row mine) (Z.of_nat (length mine)) |}.

(** How many statements [getStudyStats] issues when none fails. *)
Definition stats_statements (topic : option string) : nat :=
  match topic with
  | Some t => if Js.truthy t then 5%nat else 4%nat
  | None => 4%nat
  end.

(** One of the next [n] statements issued from [w] is rejected. *)
Definition some_statement_fails (rt : Runtime) (w : World) (n : nat) : bool :=
  existsb (fun k => sql_fails_nth rt (statements_run w + k)) (seq 0 n).

Definition sum_Z (l : list Z) : Z := foldr Z.add 0 l.

(** The schema of the named tool lets the input through. *)
Definition tool_accepts (name : ToolName) (input : JsVal) : bool :=
  match name with
  | generateQuiz_tool => bool_decide (is_Some (generateQuiz_inputSchema input))
  | checkAnswer_tool => bool_decide (is_Some (checkAnswer_inputSchema input))
  | getStudyStats_tool => bool_decide (is_Some (getStudyStats_inputSchema input))
  | saveProgress_tool => bool_decide (is_Some (saveProgress_inputSchema input))
  end.

Definition is_returned {A} (o : Outcome A) : Prop :=
  match o with Returned _ => True | Thrown _ => False end.


(** The row a successful [checkAnswer] on [i] adds in world [w]. *)
Definition checked_row (rt : Runtime) (i : CheckAnswerInput) (w : World) : QuizResult :=
  {| qr_id := generateId_nth rt (ids_drawn w);
     qr_session_id := Some (ca_sessionId i);
     qr_question := ca_question i;
     qr_user_answer := Some (ca_studentAnswer i);
     qr_correct_answer := ca_correctAnswer i;
     qr_is_correct := if ca_isCorrect i then 1 else 0;
     qr_explanation := None;
     qr_created_at := current_timestamp_nth rt (statements_run w) |}.

(** * Properties *)

(** ** Running the monad *)

Ltac run :=
  unfold mbind, M_bind, mret, M_ret, try_catch, console_error, generateId,
    insert_study_session, insert_quiz_result, select; simpl.

Lemma grown_from_refl w : grown_from w w.
Proof.
  exists [], [], []. rewrite !app_nil_r. done.
Qed.

Lemma successful_inserts_app t ev1 ev2 :
  successful_inserts t (ev1 ++ ev2) =
  (successful_inserts t ev1 + successful_inserts t ev2)%nat.
Proof. unfold successful_inserts. by rewrite filter_app, length_app. Qed.

Lemma grown_from_trans w1 w2 w3 :
  grown_from w1 w2 -> grown_from w2 w3 -> grown_from w1 w3.
Proof.
  intros (s1 & r1 & e1 & Hs1 & Hr1 & He1 & Ls1 & Lr1)
         (s2 & r2 & e2 & Hs2 & Hr2 & He2 & Ls2 & Lr2).
  exists (s1 ++ s2), (r1 ++ r2), (e1 ++ e2).
  rewrite Hs2, Hs1, Hr2, Hr1, He2, He1, !successful_inserts_app, !length_app.
  rewrite <- !(assoc_L (++)). repeat split; lia.
Qed.

Lemma append_only_ret {A} (a : A) : append_only (mret a).
Proof. intros w. apply grown_from_refl. Qed.

Lemma append_only_bind {A B} (m : M A) (k : A -> M B) :
  append_only m -> (forall a, append_only (k a)) -> append_only (m ≫= k).
Proof.
  intros Hm Hk w. unfold mbind, M_bind. specialize (Hm w).
  destruct (m w) as [[a|e] w1]; simpl in *; [|done].
  eapply grown_from_trans; [done|]. apply Hk.
Qed.

Lemma append_only_try_catch {A} (body : M A) (handler : string -> M A) :
  append_only body -> (forall e, append_only (handler e)) ->
  append_only (try_catch body handler).
Proof.
  intros Hb Hh w. unfold try_catch. specialize (Hb w).
  destruct (body w) as [[a|e] w1]; simpl in *; [done|].
  eapply grown_from_trans; [done|]. apply Hh.
Qed.

(** ** The primitives only ever append *)

Section AppendOnly.

Context (rt : Runtime).

Lemma grown_by_event w ev :
  (forall t, ev <> Inserted t) -> grown_from w (after_statement ev w).
Proof.
  intros Hev. exists [], [], [ev]. simpl. rewrite !app_nil_r.
  unfold successful_inserts.
  rewrite !filter_cons_False, filter_nil by (intros ->; by eapply Hev).
  done.
Qed.

Lemma append_only_generateId : append_only (generateId rt).
Proof.
  intros w. exists [], [], []. simpl. by rewrite !app_nil_r.
Qed.

Lemma append_only_console_error label error :
  append_only (console_error label error).
Proof.
  intros w. exists [], [], []. simpl. by rewrite !app_nil_r.
Qed.

Lemma append_only_select {A} (query : World -> list A) :
  append_only (select rt query).
Proof.
  intros w. unfold select.
  destruct (sql_fails_nth rt (statements_run w)); simpl;
    by apply grown_by_event.
Qed.

Lemma append_only_insert_study_session id topic :
  append_only (insert_study_session rt id topic).
Proof.
  intros w. unfold insert_study_session.
  destruct (sql_fails_nth rt (statements_run w)); simpl;
    [by apply grown_by_event|].
  case_bool_decide; simpl; [by apply grown_by_event|].
  eexists [_], [], [_]. simpl. rewrite app_nil_r. done.
Qed.

Lemma append_only_insert_quiz_result id sid q ua ca ic ex :
  append_only (insert_quiz_result rt id sid q ua ca ic ex).
Proof.
  intros w. unfold insert_quiz_result.
  destruct (sql_fails_nth rt (statements_run w)); simpl;
    [by apply grown_by_event|].
  case_bool_decide; simpl; [by apply grown_by_event|].
  eexists [], [_], [_]. simpl. rewrite app_nil_r. done.
Qed.

(** The journal tells the truth about inserts: a statement is journalled
    as [Inserted] exactly when it returned, as [InsertFailed] exactly when
    it threw. *)
Lemma insert_study_session_journalled id topic w :
  match insert_study_session rt id topic w with
  | (Returned _, w') =>
      journal w' = journal w ++ [Inserted study_sessions_table] /\
      length (study_sessions w') = S (length (study_sessions w))
  | (Thrown _, w') =>
      journal w' = journal w ++ [InsertFailed study_sessions_table] /\
      study_sessions w' = study_sessions w
  end.
Proof.
  unfold insert_study_session.
  destruct (sql_fails_nth rt (statements_run w)); simpl; [done|].
  case_bool_decide; simpl; [done|]. rewrite length_app. simpl. split; [done|lia].
Qed.

Lemma insert_quiz_result_journalled id sid q ua ca ic ex w :
  match insert_quiz_result rt id sid q ua ca ic ex w with
  | (Returned _, w') =>
      journal w' = journal w ++ [Inserted quiz_results_table] /\
      length (quiz_results w') = S (length (quiz_results w))
  | (Thrown _, w') =>
      journal w' = journal w ++ [InsertFailed quiz_results_table] /\
      quiz_results w' = quiz_results w
  end.
Proof.
  unfold insert_quiz_result.
  destruct (sql_fails_nth rt (statements_run w)); simpl; [done|].
  case_bool_decide; simpl; [done|]. rewrite length_app. simpl. split; [done|lia].
Qed.

Create HintDb append.

#[local] Hint Resolve append_only_ret append_only_generateId
  append_only_console_error append_only_select
  append_only_insert_study_session append_only_insert_quiz_result : append.

Ltac append_only_steps :=
  repeat first
    [ apply append_only_bind; [|intros ?]
    | apply append_only_try_catch; [|intros ?]
    | solve [eauto with append] ].

Lemma append_only_generateQuiz input : append_only (generateQuiz rt input).
Proof. unfold generateQuiz. append_only_steps. Qed.

Lemma append_only_checkAnswer input : append_only (checkAnswer rt input).
Proof. unfold checkAnswer. append_only_steps. Qed.

Lemma append_only_saveProgress input : append_only (saveProgress rt input).
Proof. unfold saveProgress. append_only_steps. Qed.

Lemma append_only_getStudyStats input : append_only (getStudyStats rt input).
Proof.
  unfold getStudyStats. append_only_steps.
  destruct (gs_topic input) as [topic|]; [|append_only_steps].
  destruct (Js.truthy topic); append_only_steps.
Qed.

Lemma append_only_validated {A B} (schema : Zod.Schema A) (execute : A -> M B)
    (wrap : B -> ToolOutput) input :
  (forall args, append_only (execute args)) ->
  append_only (validated schema execute wrap input).
Proof.
  intros H. unfold validated. destruct (schema input); append_only_steps.
Qed.

Lemma append_only_call_tool name input : append_only (call_tool rt name input).
Proof.
  destruct name; apply append_only_validated; intros args.
  - apply append_only_generateQuiz.
  - apply append_only_checkAnswer.
  - apply append_only_getStudyStats.
  - apply append_only_saveProgress.
Qed.

(** C2. Whatever sequence of calls to the four tools is run, from whatever
    world: the tables afterwards are the tables before, row for row,
    followed by new rows, and each table gained exactly as many rows as
    inserts into it succeeded during the sequence.  No existing row is
    changed or removed. *)
Theorem tables_append_only (calls : list (ToolName * JsVal)) (w : World) :
  let w' := (run_calls rt calls w).2 in
  exists new_sessions new_results events,
    study_sessions w' = study_sessions w ++ new_sessions /\
    quiz_results w' = quiz_results w ++ new_results /\
    journal w' = journal w ++ events /\
    length new_sessions = successful_inserts study_sessions_table events /\
    length new_results = successful_inserts quiz_results_table events.
Proof.
  simpl. change (grown_from w (run_calls rt calls w).2).
  revert w. induction calls as [|[name input] calls IH]; intros w; simpl.
  - apply grown_from_refl.
  - pose proof (append_only_call_tool name input w) as Hcall.
    destruct (call_tool rt name input w) as [out w1]; simpl in Hcall.
    specialize (IH w1). destruct (run_calls rt calls w1) as [outs w2]; simpl in *.
    by eapply grown_from_trans.
Qed.

End AppendOnly.

(** ** [generateQuiz] *)

Section GenerateQuiz.

Context (rt : Runtime).

(** C3. [generateQuiz] never throws: on every input and in every world it
    returns [{sessionId, topic, difficulty, numberOfQuestions,
    instruction}] with the id it has just drawn.  When the insert is
    rejected the error is written to [console.error], no row is added, and
    the payload is the same as after a successful insert. *)
Theorem generateQuiz_swallows_insert_failure (input : GenerateQuizInput) (w : World) :
  let sessionId := generateId_nth rt (ids_drawn w) in
  let payload :=
    {| gqo_sessionId := sessionId;
       gqo_topic := gq_topic input;
       gqo_difficulty := gq_difficulty input;
       gqo_numberOfQuestions := gq_numberOfQuestions input;
       gqo_instruction :=
         generateQuiz_instruction rt (gq_numberOfQuestions input)
           (gq_difficulty input) (gq_topic input) |} in
  exists w',
    generateQuiz rt input w = (Returned payload, w') /\
    quiz_results w' = quiz_results w /\
    if session_insert_rejected rt sessionId w then
      study_sessions w' = study_sessions w /\
      journal w' = journal w ++ [InsertFailed study_sessions_table] /\
      exists error,
        console w' = console w ++ [("Error creating study session:", error)]
    else
      study_sessions w' =
        study_sessions w ++
          [{| ss_id := sessionId; ss_topic := gq_topic input;
              ss_created_at := current_timestamp_nth rt (statements_run w) |}] /\
      journal w' = journal w ++ [Inserted study_sessions_table] /\
      console w' = console w.
Proof.
  unfold generateQuiz, session_insert_rejected. run.
  destruct (sql_fails_nth rt (statements_run w)); simpl.
  - eexists. split; [reflexivity|]. simpl. eauto.
  - case_bool_decide; simpl; eexists; (split; [reflexivity|]); simpl; eauto.
Qed.

End GenerateQuiz.

(** ** [saveProgress] *)

Section SaveProgress.

Context (rt : Runtime).

Lemma saveProgress_run (input : SaveProgressInput) (w : World) :
  let resultId := generateId_nth rt (ids_drawn w) in
  let explanationValue :=
    match sp_explanation input with
    | Some text => if Js.truthy text then Some text else None
    | None => None
    end in
  exists w',
    study_sessions w' = study_sessions w /\
    if result_insert_rejected rt resultId w then
      saveProgress rt input w =
        (Returned (ProgressNotSaved "Failed to save progress"), w') /\
      quiz_results w' = quiz_results w /\
      journal w' = journal w ++ [InsertFailed quiz_results_table] /\
      exists error, console w' = console w ++ [("Error saving progress:", error)]
    else
      saveProgress rt input w =
        (Returned (ProgressSaved resultId "Progress saved successfully"), w') /\
      quiz_results w' = quiz_results w ++ [saved_row rt input explanationValue w] /\
      journal w' = journal w ++ [Inserted quiz_results_table] /\
      console w' = console w.
Proof.
  unfold saveProgress, result_insert_rejected. run.
  destruct (sql_fails_nth rt (statements_run w)); simpl.
  - eexists. split; [|split; [reflexivity|]]; simpl; eauto.
  - case_bool_decide; simpl; eexists;
      (split; [|split; [reflexivity|]]); simpl; eauto.
Qed.


End SaveProgress.

(** ** Which tools report a storage failure in their result *)

Section Reporting.

Context (rt : Runtime).

Lemma checkAnswer_returns (input : CheckAnswerInput) (w : World) :
  exists o w',
    checkAnswer rt input w = (Returned o, w') /\
    cao_resultId o = generateId_nth rt (ids_drawn w) /\
    cao_isCorrect o = ca_isCorrect input.
Proof.
  unfold checkAnswer. run.
  destruct (sql_fails_nth rt (statements_run w)); simpl;
    [|case_bool_decide; simpl]; eexists _, _; (split; [reflexivity|]); done.
Qed.

Lemma generateQuiz_returns (input : GenerateQuizInput) (w : World) :
  exists o w', generateQuiz rt input w = (Returned o, w').
Proof.
  unfold generateQuiz. run.
  destruct (sql_fails_nth rt (statements_run w)); simpl;
    [|case_bool_decide; simpl]; eauto.
Qed.

(** Every statement of [getStudyStats] sits inside its [try]: the tool
    returns, and a failed statement shows in the result as
    [{error, instruction}]. *)
Lemma getStudyStats_returns (input : GetStudyStatsInput) (w : World) :
  exists o w', getStudyStats rt input w = (Returned o, w').
Proof.
  unfold getStudyStats. run.
  repeat (match goal with
          | |- context [sql_fails_nth rt ?n] => destruct (sql_fails_nth rt n); simpl
          | |- context [match gs_topic input with _ => _ end] =>
              destruct (gs_topic input) as [topic|]; simpl
          | |- context [Js.truthy ?t] => destruct (Js.truthy t); simpl
          end); eauto.
Qed.

Lemma getStudyStats_storage_down (input : GetStudyStatsInput) (w : World) :
  sql_fails_nth rt (statements_run w) = true ->
  exists w',
    getStudyStats rt input w =
      (Returned (StatsError "Unable to fetch study statistics"
         "Let the student know you couldn't retrieve their stats, but encourage them to keep studying!"),
       w') /\
    journal w' = journal w ++ [SelectFailed].
Proof.
  intros Hdown. unfold getStudyStats. run. rewrite Hdown. simpl. eauto.
Qed.

(** C5, as the code has it.  [saveProgress] never throws; it returns
    [{success: true, resultId, message}] exactly when its insert went
    through and [{success: false, error}] when it was rejected, and an
    absent explanation is stored as NULL.  Of the three tools that insert,
    it is the only one whose result reports the rejected insert: the results
    of [generateQuiz] and [checkAnswer] never carry an error.  The
    read-only [getStudyStats] does report a failed statement, as
    [{error, instruction}]. *)
Theorem saveProgress_reports_failure (input : SaveProgressInput) (w : World) :
  let resultId := generateId_nth rt (ids_drawn w) in
  let rejected := result_insert_rejected rt resultId w in
  (exists w',
     saveProgress rt input w =
       (Returned (if rejected
                  then ProgressNotSaved "Failed to save progress"
                  else ProgressSaved resultId "Progress saved successfully"), w') /\
     reports_failure
       (SaveProgressOut (if rejected
                         then ProgressNotSaved "Failed to save progress"
                         else ProgressSaved resultId "Progress saved successfully"))
       = rejected /\
     quiz_results w' =
       if rejected then quiz_results w
       else quiz_results w ++
              [saved_row rt input
                 (match sp_explanation input with
                  | Some text => if Js.truthy text then Some text else None
                  | None => None
                  end) w]) /\
  (exists w',
     (saveProgress rt (set_explanation None input) w).2 = w' /\
     quiz_results w' =
       if rejected then quiz_results w
       else quiz_results w ++ [saved_row rt input None w]) /\
  (forall i, exists o w',
     generateQuiz rt i w = (Returned o, w') /\
     reports_failure (GenerateQuizOut o) = false) /\
  (forall i, exists o w',
     checkAnswer rt i w = (Returned o, w') /\
     reports_failure (CheckAnswerOut o) = false) /\
  (forall i, exists o w',
     getStudyStats rt i w = (Returned o, w') /\
     (if sql_fails_nth rt (statements_run w)
      then reports_failure (GetStudyStatsOut o) = true
      else True)).
Proof.
  simpl. repeat split.
  - destruct (saveProgress_run rt input w) as (w' & _ & H).
    destruct (result_insert_rejected rt _ w);
      destruct H as (-> & Hq & _); eexists; (split; [reflexivity|]);
      split; [reflexivity|done|reflexivity|done].
  - destruct (saveProgress_run rt (set_explanation None input) w) as (w' & _ & H).
    simpl in H.
    destruct (result_insert_rejected rt _ w);
      destruct H as (-> & Hq & _); eexists; (split; [reflexivity|]); done.
  - intros i. destruct (generateQuiz_returns i w) as (o & w' & ->). eauto.
  - intros i. destruct (checkAnswer_returns i w) as (o & w' & -> & _). eauto.
  - intros i. destruct (sql_fails_nth rt (statements_run w)) eqn:Hdown.
    + destruct (getStudyStats_storage_down i w Hdown) as (w' & -> & _). eauto.
    + destruct (getStudyStats_returns i w) as (o & w' & ->). eauto.
Qed.

End Reporting.

(** C5, as stated, fails on its last sentence: over a storage that rejects
    every statement, the result of [getStudyStats] reports the failure
    too. *)
Lemma getStudyStats_reports_failure_too : ~ only_saveProgress_reports_failure.
Proof.
  intros H.
  specialize (H unreachable getStudyStats_tool (JsObject []) empty_world
                (GetStudyStatsOut
                   (StatsError "Unable to fetch study statistics"
                      "Let the student know you couldn't retrieve their stats, but encourage them to keep studying!"))
                _ eq_refl eq_refl).
  discriminate H.
Qed.

(** ** Validation of the input of [generateQuiz] *)

Lemma Zod_string_inv v s : Zod.string v = Some s -> v = JsString s.
Proof. destruct v; simpl; congruence. Qed.

Lemma Zod_difficulty_inv v d :
  Zod.difficulty v = Some d -> v = JsString (Difficulty_toString d).
Proof.
  destruct v as [| | | |s| |]; simpl; try congruence.
  destruct (String.eqb_spec s "easy") as [->|_]; [by intros [= <-]|].
  destruct (String.eqb_spec s "medium") as [->|_]; [by intros [= <-]|].
  destruct (String.eqb_spec s "hard") as [->|_]; [by intros [= <-]|].
  congruence.
Qed.

Lemma Zod_number_inv v n :
  Zod.number_min_max 1 10 v = Some n -> v = JsNumber n /\ between_1_and_10 n.
Proof.
  unfold between_1_and_10. destruct v as [| | |m| | |]; simpl; try congruence.
  destruct (Js.is_nan m) eqn:?; [congruence|].
  destruct (Js.lt m _) eqn:?; [congruence|].
  destruct (Js.gt m _) eqn:?; [congruence|].
  by intros [= <-].
Qed.

Lemma Zod_default_inv {A} (inner : Zod.Schema A) d v a :
  Zod.default inner d v = Some a ->
  (v = JsUndefined /\ inner d = Some a) \/ (v <> JsUndefined /\ inner v = Some a).
Proof. destruct v; simpl; intros H; (by left) || (by right). Qed.

(** What the schema of [generateQuiz] lets through.  A call whose input
    the schema rejects is answered with a tool error and leaves the world
    as it was: [execute] did not run.  When [execute] runs, the input is an
    object whose [topic] is a string, whose [difficulty] is absent (then
    [medium] is used) or one of [easy], [medium], [hard], and whose
    [numberOfQuestions] is absent (then 5 is used) or a number that is
    neither below 1 nor above 10; nothing checks that it is an integer. *)
Theorem generateQuiz_input_validated (rt : Runtime) (input : JsVal) (w : World) :
  match generateQuiz_inputSchema input with
  | None => call_tool rt generateQuiz_tool input w = (Returned InvalidToolInput, w)
  | Some args =>
      call_tool rt generateQuiz_tool input w =
        (o ← generateQuiz rt args; mret (GenerateQuizOut o)) w /\
      exists fields,
        input = JsObject fields /\
        get "topic" fields = JsString (gq_topic args) /\
        (get "difficulty" fields = JsUndefined /\ gq_difficulty args = medium \/
         get "difficulty" fields = JsString (Difficulty_toString (gq_difficulty args))) /\
        (get "numberOfQuestions" fields = JsUndefined /\
           gq_numberOfQuestions args = Js.of_Z 5 \/
         get "numberOfQuestions" fields = JsNumber (gq_numberOfQuestions args) /\
           between_1_and_10 (gq_numberOfQuestions args))
  end.
Proof.
  unfold call_tool, validated.
  destruct (generateQuiz_inputSchema input) as [args|] eqn:Hparse; [|done].
  split; [done|].
  destruct input as [| | | | | |fields]; simpl in Hparse; try discriminate.
  exists fields. split; [done|].
  destruct (Zod.string (get "topic" fields)) as [topic|] eqn:Ht;
    simpl in Hparse; [|discriminate].
  destruct (Zod.default Zod.difficulty _ (get "difficulty" fields))
    as [difficulty|] eqn:Hd; simpl in Hparse; [|discriminate].
  destruct (Zod.default (Zod.number_min_max 1 10) _ (get "numberOfQuestions" fields))
    as [n|] eqn:Hn; simpl in Hparse; [|discriminate].
  injection Hparse as <-. simpl.
  apply Zod_string_inv in Ht.
  apply Zod_default_inv in Hd. apply Zod_default_inv in Hn.
  split; [done|]. split.
  - destruct Hd as [[Hu Hd]|[_ Hd]].
    + left. split; [done|]. simpl in Hd. congruence.
    + right. by apply Zod_difficulty_inv.
  - destruct Hn as [[Hu Hn]|[_ Hn]].
    + left. split; [done|]. apply Zod_number_inv in Hn as [Hn _]. congruence.
    + right. by apply Zod_number_inv.
Qed.

(** ** [getStudyStats] when the storage answers *)

Lemma storage_up_at rt w n k :
  storage_up rt w n -> (k < n)%nat ->
  sql_fails_nth rt (Nat.iter k S (statements_run w)) = false.
Proof.
  intros Hup Hk. rewrite <- (Hup k Hk). f_equal.
  induction k as [|k IH]; simpl; [lia|]. rewrite IH by lia. lia.
Qed.

Lemma or_zero_correct {A} (p : A -> bool) (rows : list A) :
  or_zero (match rows with [] => None | _ :: _ => Some (count_where p rows) end)
  = count_where p rows.
Proof. by destruct rows. Qed.

Lemma getStudyStats_run rt topic w :
  storage_up rt w 5 ->
  exists topicsStudied recentSessions instruction w',
    getStudyStats rt {| gs_topic := topic |} w =
      (Returned (Stats (overall_of w) topicsStudied recentSessions
                   (topicStats_of topic w) instruction), w') /\
    study_sessions w' = study_sessions w /\
    quiz_results w' = quiz_results w.
Proof.
  intros Hup.
  pose proof (storage_up_at rt w 5 0 Hup ltac:(lia)) as H0.
  pose proof (storage_up_at rt w 5 1 Hup ltac:(lia)) as H1.
  pose proof (storage_up_at rt w 5 2 Hup ltac:(lia)) as H2.
  pose proof (storage_up_at rt w 5 3 Hup ltac:(lia)) as H3.
  pose proof (storage_up_at rt w 5 4 Hup ltac:(lia)) as H4.
  simpl in H0, H1, H2, H3, H4.
  unfold getStudyStats. run. rewrite H0. simpl. rewrite H1. simpl.
  rewrite H2. simpl. rewrite H3. simpl.
  destruct topic as [[|c t]|]; simpl.
  - eexists _, _, _, _. split; [reflexivity|done].
  - rewrite H4. simpl. rewrite !or_zero_correct.
    eexists _, _, _, _. split; [reflexivity|done].
  - eexists _, _, _, _. split; [reflexivity|done].
Qed.

(** ** The accuracy figure *)

Example accuracy_5_of_7 : accuracy 5 7 = Js.of_Z 71.
Proof. reflexivity. Qed.

Example accuracy_of_nothing : accuracy 0 0 = Js.of_Z 0.
Proof. reflexivity. Qed.

Lemma accuracy_no_answers correct total :
  total <= 0 -> accuracy correct total = Js.of_Z 0.
Proof. intros H. unfold accuracy. by destruct (Z.ltb_spec 0 total); [lia|]. Qed.

(** Up to 120 answers the figure is the exact percentage rounded half up,
    except at exact ties, where it can be the integer below. *)
Lemma accuracy_near_exact correct total :
  0 <= correct <= total -> 0 < total <= 120 -> near_exact correct total = true.
Proof.
  intros Hc Ht.
  assert (forallb (fun t => forallb (fun c => near_exact (Z.of_nat c) (Z.of_nat (S t)))
                              (seq 0 (S (S t))))
            (seq 0 120) = true) as Hall by (vm_compute; reflexivity).
  rewrite forallb_forall in Hall.
  assert (In (Z.to_nat total - 1)%nat (seq 0 120)) as Hin by (apply in_seq; lia).
  specialize (Hall _ Hin). rewrite forallb_forall in Hall.
  assert (In (Z.to_nat correct) (seq 0 (S (S (Z.to_nat total - 1))))) as Hin'
    by (apply in_seq; lia).
  specialize (Hall _ Hin').
  replace (S (Z.to_nat total - 1)) with (Z.to_nat total) in Hall by lia.
  by rewrite !Z2Nat.id in Hall by lia.
Qed.

(** C1 at 23 correct answers out of 40.  After forty answers recorded
    through [checkAnswer], twenty-three of them correct, [getStudyStats]
    reports an accuracy of 57, while 100 * 23 / 40 = 57.5 rounds to 58: the
    quotient 23 / 40 is rounded to a double before it is multiplied by 100,
    and the product 57.49999999999999 lies below the tie. *)
Theorem accuracy_23_of_40_is_57 :
  let w := (run_calls reliable forty_answers empty_world).2 in
  exact_percentage 23 40 = 58 /\
  exists topicsStudied recentSessions instruction w',
    getStudyStats reliable {| gs_topic := None |} w =
      (Returned
         (Stats {| totalQuestionsAnswered := 40;
                   overall_correctAnswers := 23;
                   overall_accuracy := Js.of_Z 57 |}
                topicsStudied recentSessions None instruction), w').
Proof.
  split; [reflexivity|].
  eexists _, _, _, _. vm_compute. reflexivity.
Qed.

(** ** [LIKE] with a pattern [%topic%] *)

Lemma append_nil (t : string) : EmptyString +:+ t = t.
Proof. reflexivity. Qed.

Lemma append_cons c (s t : string) : String c s +:+ t = String c (s +:+ t).
Proof. reflexivity. Qed.

Lemma append_empty_r (s : string) : s +:+ EmptyString = s.
Proof. induction s as [|c s IH]; rewrite ?append_cons, ?append_nil; congruence. Qed.

Lemma like_percent rest text :
  like (String "%" rest) text =
  like rest text ||
  match text with
  | EmptyString => false
  | String _ text' => like (String "%" rest) text'
  end.
Proof. by destruct text. Qed.

Lemma like_percent_iff rest text :
  like (String "%" rest) text = true <->
  exists before after, text = before +:+ after /\ like rest after = true.
Proof.
  induction text as [|c text IH]; rewrite like_percent.
  - rewrite orb_false_r. split.
    + intros H. by exists EmptyString, EmptyString.
    + intros (before & after & Heq & H).
      destruct before; rewrite ?append_cons, ?append_nil in Heq;
        [by subst|discriminate].
  - rewrite orb_true_iff, IH. split.
    + intros [H|(before & after & -> & H)].
      * by exists EmptyString, (String c text).
      * by exists (String c before), after.
    + intros (before & after & Heq & H).
      destruct before as [|c' before]; rewrite ?append_cons, ?append_nil in Heq.
      * left. by subst.
      * right. injection Heq as -> ->. eauto.
Qed.

Lemma like_anything text : like "%" text = true.
Proof. apply like_percent_iff. exists text, EmptyString. by rewrite append_empty_r. Qed.

Lemma like_literal_prefix topic text :
  no_wildcard topic = true ->
  like (topic +:+ "%") text = true <->
  exists mid after, text = mid +:+ after /\ same_nocase topic mid = true.
Proof.
  intros Hlit. revert text.
  induction topic as [|c topic IH]; intros text.
  - rewrite append_nil. split.
    + intros _. by exists EmptyString, text.
    + intros _. apply like_anything.
  - simpl in Hlit. apply andb_true_iff in Hlit as [Hc Hlit].
    unfold is_wildcard in Hc. apply negb_true_iff, orb_false_iff in Hc as [Hp Hu].
    rewrite append_cons. simpl. rewrite Hp, Hu.
    destruct text as [|d text].
    + split; [done|]. intros (mid & after & Heq & H).
      destruct mid; rewrite ?append_cons, ?append_nil in Heq; simpl in *; discriminate.
    + rewrite andb_true_iff, (IH Hlit). split.
      * intros (Hcd & mid & after & -> & H).
        exists (String d mid), after. simpl. by rewrite Hcd, H.
      * intros (mid & after & Heq & H).
        destruct mid as [|d' mid]; simpl in H; [discriminate|].
        rewrite append_cons in Heq. injection Heq as -> ->.
        apply andb_true_iff in H as [Hcd H]. eauto.
Qed.

(** For a topic without [%] and [_], the filter [LIKE %topic%] is the
    case-insensitive substring test. *)
Lemma like_topic_pattern topic text :
  no_wildcard topic = true ->
  like (topic_pattern topic) text = true <-> contains_nocase topic text.
Proof.
  intros Hlit. unfold topic_pattern, contains_nocase.
  change ("%" +:+ topic +:+ "%") with (String "%" (topic +:+ "%")).
  rewrite like_percent_iff. split.
  - intros (before & rest & -> & H).
    apply (like_literal_prefix _ _ Hlit) in H as (mid & after & -> & H). eauto.
  - intros (before & mid & after & -> & H).
    exists before, (mid +:+ after). split; [done|].
    apply (like_literal_prefix _ _ Hlit). eauto.
Qed.

Lemma elem_of_joined_like pattern w r s :
  (r, s) ∈ joined_like pattern w <->
  r ∈ quiz_results w /\ s ∈ study_sessions w /\
  qr_session_id r = Some (ss_id s) /\ like pattern (ss_topic s) = true.
Proof.
  unfold joined_like. rewrite list_elem_of_bind. split.
  - intros (r' & Hin & Hr). apply list_elem_of_bind in Hin as (s' & Hin & Hs).
    apply list_elem_of_singleton in Hin as [= -> ->].
    apply list_elem_of_In, filter_In in Hs as [Hs Hp].
    apply andb_true_iff in Hp as [Hb Hl]. apply bool_decide_eq_true in Hb.
    by rewrite <- list_elem_of_In in Hs.
  - intros (Hr & Hs & Hid & Hl). exists r. split; [|done].
    apply list_elem_of_bind. exists s. split; [by apply list_elem_of_singleton|].
    apply list_elem_of_In, filter_In. rewrite <- list_elem_of_In. split; [done|].
    apply andb_true_iff. split; [by apply bool_decide_eq_true|done].
Qed.

(** ** The topic filter *)

Lemma python_in_both_topics :
  contains_nocase "python" "Python Basics" /\
  contains_nocase "python" "Advanced Python".
Proof.
  split.
  - by exists EmptyString, "Python", " Basics".
  - by exists "Advanced ", "Python", EmptyString.
Qed.

(** The topic filter on topics without wildcards.  While the storage
    answers, [getStudyStats] with [topic = "python"] returns a [topicStats]
    whose totals count the rows of the join of [quiz_results] with the
    sessions whose topic contains "python" up to case; every result of a
    session called "Python Basics" or "Advanced Python" is among them.  For
    a topic without [%] and [_], [LIKE %topic%] is the case-insensitive
    substring test.  Without a topic, [topicStats] is null. *)
Theorem topic_filter_is_substring_match (rt : Runtime) (w : World) :
  storage_up rt w 5 ->
  (exists topicsStudied recentSessions instruction w' scoped,
     getStudyStats rt {| gs_topic := Some "python" |} w =
       (Returned (Stats (overall_of w) topicsStudied recentSessions
                    (Some scoped) instruction), w') /\
     totalQuestions scoped = Z.of_nat (length (joined_like "%python%" w)) /\
     ts_correctAnswers scoped =
       count_where (fun rs => is_correct_row rs.1) (joined_like "%python%" w) /\
     ts_accuracy scoped = accuracy (ts_correctAnswers scoped) (totalQuestions scoped) /\
     (forall r s,
        (r, s) ∈ joined_like "%python%" w <->
        r ∈ quiz_results w /\ s ∈ study_sessions w /\
        qr_session_id r = Some (ss_id s) /\ contains_nocase "python" (ss_topic s)) /\
     (forall r s,
        r ∈ quiz_results w -> s ∈ study_sessions w ->
        qr_session_id r = Some (ss_id s) ->
        ss_topic s = "Python Basics" \/ ss_topic s = "Advanced Python" ->
        (r, s) ∈ joined_like "%python%" w)) /\
  (forall topic text,
     no_wildcard topic = true ->
     like (topic_pattern topic) text = true <-> contains_nocase topic text) /\
  (exists topicsStudied recentSessions instruction w',
     getStudyStats rt {| gs_topic := None |} w =
       (Returned (Stats (overall_of w) topicsStudied recentSessions None instruction),
        w')).
Proof.
  intros Hup.
  assert (forall r s,
            (r, s) ∈ joined_like "%python%" w <->
            r ∈ quiz_results w /\ s ∈ study_sessions w /\
            qr_session_id r = Some (ss_id s) /\ contains_nocase "python" (ss_topic s))
    as Hjoin.
  { intros r s. rewrite elem_of_joined_like.
    by rewrite (like_topic_pattern "python" (ss_topic s) eq_refl). }
  split; [|split].
  - destruct (getStudyStats_run rt (Some "python") w Hup)
      as (topics & recent & instr & w' & Hrun & _).
    eexists topics, recent, instr, w', _. split; [exact Hrun|].
    simpl. do 3 (split; [reflexivity|]). split; [exact Hjoin|].
    intros r s Hr Hs Hid Htopic. apply Hjoin. do 3 (split; [done|]).
    destruct python_in_both_topics. by destruct Htopic as [-> | ->].
  - intros topic text Hlit. by apply like_topic_pattern.
  - destruct (getStudyStats_run rt None w Hup)
      as (topics & recent & instr & w' & Hrun & _).
    by exists topics, recent, instr, w'.
Qed.

Lemma topic_filter_is_substring_match_witness :
  storage_up reliable python_world 5 /\
  exists topicsStudied recentSessions instruction w' scoped,
    getStudyStats reliable {| gs_topic := Some "python" |} python_world =
      (Returned (Stats (overall_of python_world) topicsStudied recentSessions
                   (Some scoped) instruction), w') /\
    totalQuestions scoped = 3.
Proof.
  assert (storage_up reliable python_world 5) as Hup by (intros k _; reflexivity).
  split; [exact Hup|].
  destruct (topic_filter_is_substring_match reliable python_world Hup)
    as [(topics & recent & instr & w' & scoped & Hrun & Htotal & _) _].
  exists topics, recent, instr, w', scoped. split; [exact Hrun|].
  rewrite Htotal. reflexivity.
Defined.

(** ** Primary keys stay unique *)

Section UniqueKeys.

Context (rt : Runtime).

Lemma keeps_ret {A} P (a : A) : keeps P (mret a).
Proof. by intros w. Qed.

Lemma keeps_bind {A B} P (m : M A) (k : A -> M B) :
  keeps P m -> (forall a, keeps P (k a)) -> keeps P (m ≫= k).
Proof.
  intros Hm Hk w Hw. unfold mbind, M_bind. specialize (Hm w Hw).
  destruct (m w) as [[a|e] w1]; simpl in *; [|done]. by apply Hk.
Qed.

Lemma keeps_try_catch {A} P (body : M A) (handler : string -> M A) :
  keeps P body -> (forall e, keeps P (handler e)) -> keeps P (try_catch body handler).
Proof.
  intros Hb Hh w Hw. unfold try_catch. specialize (Hb w Hw).
  destruct (body w) as [[a|e] w1]; simpl in *; [done|]. by apply Hh.
Qed.

Lemma keeps_keys_generateId : keeps unique_keys (generateId rt).
Proof. by intros w. Qed.

Lemma keeps_keys_console_error label error :
  keeps unique_keys (console_error label error).
Proof. by intros w. Qed.

Lemma keeps_keys_select {A} (query : World -> list A) :
  keeps unique_keys (select rt query).
Proof.
  intros w Hw. unfold select. by destruct (sql_fails_nth rt (statements_run w)).
Qed.

Lemma keeps_keys_insert_study_session id topic :
  keeps unique_keys (insert_study_session rt id topic).
Proof.
  intros w [Hs Hr]. unfold insert_study_session.
  destruct (sql_fails_nth rt (statements_run w)); simpl; [done|].
  case_bool_decide as Hfresh; simpl; [done|].
  split; [|done]. simpl. rewrite fmap_app. apply NoDup_app. split; [done|].
  split; [|apply NoDup_singleton].
  intros x Hx Hx'. apply list_elem_of_singleton in Hx'. simpl in Hx'. by subst.
Qed.

Lemma keeps_keys_insert_quiz_result id sid q ua ca ic ex :
  keeps unique_keys (insert_quiz_result rt id sid q ua ca ic ex).
Proof.
  intros w [Hs Hr]. unfold insert_quiz_result.
  destruct (sql_fails_nth rt (statements_run w)); simpl; [done|].
  case_bool_decide as Hfresh; simpl; [done|].
  split; [done|]. simpl. rewrite fmap_app. apply NoDup_app. split; [done|].
  split; [|apply NoDup_singleton].
  intros x Hx Hx'. apply list_elem_of_singleton in Hx'. simpl in Hx'. by subst.
Qed.

Create HintDb keys.

#[local] Hint Resolve keeps_ret keeps_keys_generateId keeps_keys_console_error
  keeps_keys_select keeps_keys_insert_study_session
  keeps_keys_insert_quiz_result : keys.

Ltac keeps_steps :=
  repeat first
    [ apply keeps_bind; [|intros ?]
    | apply keeps_try_catch; [|intros ?]
    | solve [eauto with keys] ].

Lemma keeps_keys_call_tool name input :
  keeps unique_keys (call_tool rt name input).
Proof.
  destruct name; unfold call_tool, validated;
    match goal with |- context [?schema input] => destruct (schema input) as [args|] end;
    try apply keeps_ret; apply keeps_bind; try (intros ?; apply keeps_ret).
  - unfold generateQuiz. keeps_steps.
  - unfold checkAnswer. keeps_steps.
  - unfold getStudyStats. keeps_steps.
    destruct (gs_topic args) as [topic|]; [|keeps_steps].
    destruct (Js.truthy topic); keeps_steps.
  - unfold saveProgress. keeps_steps.
Qed.

(** Every world the tools can reach from the empty one has distinct
    primary keys. *)
Lemma run_calls_unique_keys calls w :
  unique_keys w -> unique_keys (run_calls rt calls w).2.
Proof.
  revert w. induction calls as [|[name input] calls IH]; intros w Hw; simpl; [done|].
  pose proof (keeps_keys_call_tool name input w Hw) as Hcall.
  destruct (call_tool rt name input w) as [out w1]; simpl in Hcall.
  specialize (IH w1 Hcall). by destruct (run_calls rt calls w1) as [outs w2].
Qed.

End UniqueKeys.

(** ** Orphaned results *)

Lemma length_bind_singleton {A B} (g : A -> B) (l : list A) :
  length (l ≫= fun x => [g x]) = length l.
Proof. induction l as [|x l IH]; csimpl; [done|]. by rewrite IH. Qed.

Lemma filter_none {A} (p : A -> bool) (l : list A) :
  (forall x, x ∈ l -> p x = false) -> List.filter p l = [].
Proof.
  induction l as [|x l IH]; intros H; simpl; [done|].
  rewrite (H x (list_elem_of_here _ _)). apply IH. intros y Hy. apply H. by right.
Qed.

Lemma filter_unique_key {A} (key : A -> string) (p : A -> bool) (k : string) (l : list A) :
  NoDup (key <$> l) ->
  (forall x, x ∈ l -> p x = true -> key x = k) ->
  (length (List.filter p l) <= 1)%nat.
Proof.
  induction l as [|x l IH]; csimpl; intros Hnd Hkey; [lia|].
  apply NoDup_cons in Hnd as [Hx Hnd].
  assert (forall y, y ∈ l -> p y = true -> key y = k) as Hkey'
    by (intros y Hy; apply Hkey; by right).
  destruct (p x) eqn:Hpx; [|by apply IH].
  assert (List.filter p l = []) as ->; [|simpl; lia].
  apply filter_none. intros y Hy.
  destruct (p y) eqn:Hpy; [|done]. exfalso. apply Hx.
  rewrite (Hkey x (list_elem_of_here _ _) Hpx), <- (Hkey' y Hy Hpy).
  by apply list_elem_of_fmap_2.
Qed.

Lemma orphan_joins_nothing w r pattern :
  orphaned w r ->
  List.filter (fun s => belongs_to s r && like pattern (ss_topic s)) (study_sessions w) = [].
Proof.
  intros Horphan.
  apply filter_none. intros s Hs.
  unfold belongs_to. rewrite bool_decide_eq_false_2; [done|]. by apply Horphan.
Qed.

Lemma join_at_most_one w r pattern :
  NoDup (ss_id <$> study_sessions w) ->
  (length (List.filter (fun s => belongs_to s r && like pattern (ss_topic s))
             (study_sessions w)) <= 1)%nat.
Proof.
  intros Hnd. destruct (qr_session_id r) as [sid|] eqn:Hsid.
  - apply (filter_unique_key ss_id _ sid); [done|].
    intros s _ Hp. apply andb_true_iff in Hp as [Hb _].
    apply bool_decide_eq_true in Hb. congruence.
  - assert (List.filter (fun s => belongs_to s r && like pattern (ss_topic s))
              (study_sessions w) = []) as ->; [|simpl; lia].
    apply orphan_joins_nothing. intros s _. congruence.
Qed.

Lemma join_misses_orphans w pattern (results : list QuizResult) r :
  NoDup (ss_id <$> study_sessions w) ->
  r ∈ results -> orphaned w r ->
  (length (results ≫= fun r =>
             List.filter (fun s => belongs_to s r && like pattern (ss_topic s))
               (study_sessions w) ≫= fun s => [(r, s)])
   < length results)%nat.
Proof.
  intros Hnd Hr Horphan.
  assert (forall l : list QuizResult,
            (length (l ≫= fun r =>
               List.filter (fun s => belongs_to s r && like pattern (ss_topic s))
                 (study_sessions w) ≫= fun s => [(r, s)]) <= length l)%nat) as Hle.
  { induction l as [|x l IH]; csimpl; [lia|].
    rewrite length_app, length_bind_singleton.
    pose proof (join_at_most_one w x pattern Hnd). lia. }
  induction results as [|x results IH]; [by apply not_elem_of_nil in Hr|].
  csimpl. rewrite length_app, length_bind_singleton.
  apply elem_of_cons in Hr as [<-|Hr].
  - rewrite (orphan_joins_nothing w r pattern Horphan). simpl.
    specialize (Hle results). lia.
  - specialize (IH Hr). pose proof (join_at_most_one w x pattern Hnd). lia.
Qed.

(** C10. A result row whose [session_id] names no session counts towards
    the overall total, which is the number of rows of [quiz_results], and
    never towards the topic-scoped total, whose join it does not enter.
    With such a row present and the session ids distinct (as the primary
    key makes them), the overall total exceeds the topic-scoped total for
    every topic; one answer recorded for a session id that was never
    created gives such a state. *)
Theorem orphans_missing_from_topic_stats (rt : Runtime) (w : World) (r : QuizResult) :
  storage_up rt w 5 ->
  r ∈ quiz_results w ->
  orphaned w r ->
  (forall topic, exists topicsStudied recentSessions instruction w',
     getStudyStats rt {| gs_topic := topic |} w =
       (Returned (Stats (overall_of w) topicsStudied recentSessions
                    (topicStats_of topic w) instruction), w')) /\
  totalQuestionsAnswered (overall_of w) = Z.of_nat (length (quiz_results w)) /\
  (forall pattern s, (r, s) ∉ joined_like pattern w) /\
  (NoDup (ss_id <$> study_sessions w) ->
   forall topic scoped,
     topicStats_of topic w = Some scoped ->
     totalQuestions scoped < totalQuestionsAnswered (overall_of w)) /\
  (exists r0,
     r0 ∈ quiz_results orphan_world /\ orphaned orphan_world r0 /\
     unique_keys orphan_world).
Proof.
  intros Hup Hr Horphan. split; [|split; [|split; [|split]]].
  - intros topic.
    destruct (getStudyStats_run rt topic w Hup)
      as (topics & recent & instr & w' & Hrun & _).
    by exists topics, recent, instr, w'.
  - reflexivity.
  - intros pattern s Hin. apply elem_of_joined_like in Hin as (_ & Hs & Hid & _).
    by apply (Horphan s).
  - intros Hnd topic scoped Hscoped. unfold topicStats_of in Hscoped.
    destruct topic as [t|]; [|discriminate].
    destruct (Js.truthy t); [|discriminate].
    injection Hscoped as <-. simpl.
    apply inj_lt. unfold joined_like. by eapply join_misses_orphans.
  - eexists. split; [apply list_elem_of_singleton; reflexivity|].
    split; [|split; apply NoDup_nil_2 || (apply NoDup_singleton)].
    intros s Hs. by apply not_elem_of_nil in Hs.
Qed.

Lemma orphans_missing_from_topic_stats_witness :
  storage_up reliable orphan_world 5 /\
  forall topic scoped,
    topicStats_of topic orphan_world = Some scoped ->
    totalQuestions scoped < totalQuestionsAnswered (overall_of orphan_world).
Proof.
  assert (storage_up reliable orphan_world 5) as Hup by (intros k _; reflexivity).
  split; [exact Hup|].
  assert (orphaned orphan_world
            {| qr_id := "id0"; qr_session_id := Some "nowhere"; qr_question := "q";
               qr_user_answer := Some "a"; qr_correct_answer := "b"; qr_is_correct := 1;
               qr_explanation := None; qr_created_at := "t0" |}) as Horphan.
  { intros s Hs. by apply not_elem_of_nil in Hs. }
  destruct (orphans_missing_from_topic_stats reliable orphan_world _ Hup
              (list_elem_of_here _ _) Horphan) as (_ & _ & _ & Hless & _).
  apply Hless. apply NoDup_nil_2.
Defined.

(** ** The step budget *)

Section StepBudget.

Context (rt : Runtime).





End StepBudget.


(** ** The sanitizer *)

(** C8. Sanitizing a sanitized history changes nothing.  The sanitized
    history is the original one with some messages left out: the messages
    that remain are unchanged and in their original order, every message
    without a dangling tool call remains, and a history made of such
    messages only is returned as it is. *)
Theorem cleanupMessages_idempotent (history : list UIMessage) :
  cleanupMessages (cleanupMessages history) = cleanupMessages history /\
  cleanupMessages history `sublist_of` history /\
  (forall m, m ∈ history -> completed m -> m ∈ cleanupMessages history) /\
  (Forall completed history -> cleanupMessages history = history).
Proof.
  unfold cleanupMessages. repeat split.
  - rewrite list_filter_filter. apply list_filter_iff. tauto.
  - apply sublist_filter.
  - intros m Hm Hc. by apply list_elem_of_filter.
  - induction 1 as [|m h Hm Hh IH]; [done|].
    rewrite filter_cons_True by done. by rewrite IH.
Qed.

Lemma cleanupMessages_idempotent_witness :
  let history :=
    [ {| msg_id := "m1"; msg_role := "user"; msg_parts := [TextPart "quiz me"] |};
      {| msg_id := "m2"; msg_role := "assistant";
         msg_parts := [ToolCallPart "call1" "generateQuiz" (JsObject []) None] |};
      {| msg_id := "m3"; msg_role := "assistant";
         msg_parts := [ToolCallPart "call2" "getStudyStats" (JsObject []) (Some JsNull);
                       TextPart "here are your stats"] |} ] in
  cleanupMessages (cleanupMessages history) = cleanupMessages history /\
  msg_id <$> cleanupMessages history = ["m1"; "m3"].
Proof.
  intros history. split.
  - apply (cleanupMessages_idempotent history).
  - reflexivity.
Defined.

(** * Further properties of the code *)

(** ** [initializeDatabase] *)

(** Once [initializeDatabase] has returned, the flag is set and calling it
    again, whatever the storage would now answer, returns at once and
    changes nothing: no statement is issued.  A call that found the flag
    unset and returned has left both tables in existence. *)
Theorem initializeDatabase_idempotent (rt rt' : Runtime) (c : Chat) :
  match initializeDatabase rt c with
  | (Returned _, c') =>
      dbInitialized c' = true /\
      initializeDatabase rt' c' = (Returned tt, c') /\
      (if dbInitialized c then c' = c
       else is_Some (sessions_table (storage c')) /\
            is_Some (results_table (storage c')) /\
            statements_issued (storage c') = S (S (statements_issued (storage c))))
  | (Thrown _, c') => dbInitialized c = false /\ dbInitialized c' = false
  end.
Proof.
  unfold initializeDatabase at 1.
  destruct (dbInitialized c) eqn:Hflag.
  - unfold initializeDatabase. by rewrite Hflag.
  - unfold create_study_sessions, create_quiz_results.
    destruct (sql_fails_nth rt (statements_issued (storage c))); simpl; [done|].
    destruct (sql_fails_nth rt (S (statements_issued (storage c)))); simpl; [done|].
    eauto 10.
Qed.

(** [initializeDatabase] never touches rows: a table that exists keeps its
    rows whether the call returns or throws, and a table it creates starts
    empty.  It throws only when the storage rejects one of its two
    statements, and then the flag stays unset, so the next message tries
    again. *)
Theorem initializeDatabase_keeps_rows (rt : Runtime) (c : Chat) :
  let '(out, c') := initializeDatabase rt c in
  (match sessions_table (storage c) with
   | Some rows => sessions_table (storage c') = Some rows
   | None => sessions_table (storage c') = None \/
             sessions_table (storage c') = Some []
   end) /\
  (match results_table (storage c) with
   | Some rows => results_table (storage c') = Some rows
   | None => results_table (storage c') = None \/
             results_table (storage c') = Some []
   end) /\
  (match out with
   | Returned _ => True
   | Thrown _ =>
       dbInitialized c' = false /\
       (sql_fails_nth rt (statements_issued (storage c)) = true \/
        sql_fails_nth rt (S (statements_issued (storage c))) = true)
   end).
Proof.
  unfold initializeDatabase.
  destruct (dbInitialized c) eqn:Hflag.
  - destruct (sessions_table (storage c)), (results_table (storage c)); auto.
  - unfold create_study_sessions, create_quiz_results. simpl.
    destruct (sql_fails_nth rt (statements_issued (storage c))); simpl.
    + destruct (sessions_table (storage c)), (results_table (storage c)); auto.
    + destruct (sql_fails_nth rt (S (statements_issued (storage c)))); simpl;
        destruct (sessions_table (storage c)), (results_table (storage c));
        simpl; auto.
Qed.

(** ** [checkAnswer] *)

Section CheckAnswer.

Context (rt : Runtime).

Lemma checkAnswer_effect (input : CheckAnswerInput) (w : World) :
  let w' := (checkAnswer rt input w).2 in
  study_sessions w' = study_sessions w /\
  quiz_results w' =
    if result_insert_rejected rt (generateId_nth rt (ids_drawn w)) w
    then quiz_results w
    else quiz_results w ++ [checked_row rt input w].
Proof.
  unfold checkAnswer, result_insert_rejected. run.
  destruct (sql_fails_nth rt (statements_run w)); simpl; [done|].
  by case_bool_decide.
Qed.

(** [checkAnswer] never throws and never judges: it echoes the verdict it
    was given, picks the congratulating or the correcting instruction by
    it, and returns the id it drew.  An accepted insert stores one row with
    [is_correct] 1 or 0, the student's answer, no explanation, and the
    session id as given, whether or not such a session exists; a rejected
    insert stores nothing and is written to [console.error]. *)
Theorem checkAnswer_records_the_verdict (input : CheckAnswerInput) (w : World) :
  let resultId := generateId_nth rt (ids_drawn w) in
  let payload :=
    {| cao_resultId := resultId;
       cao_isCorrect := ca_isCorrect input;
       cao_studentAnswer := ca_studentAnswer input;
       cao_correctAnswer := ca_correctAnswer input;
       cao_instruction :=
         if ca_isCorrect input
         then "The student got it right! Congratulate them and provide any additional interesting facts about this topic."
         else "The student got it wrong. Kindly explain why the correct answer is right and help them understand the concept better. Offer a memory trick if applicable." |} in
  exists w',
    checkAnswer rt input w = (Returned payload, w') /\
    study_sessions w' = study_sessions w /\
    if result_insert_rejected rt resultId w then
      quiz_results w' = quiz_results w /\
      exists error,
        console w' = console w ++ [("Error saving quiz result:", error)]
    else
      quiz_results w' =
        quiz_results w ++
          [{| qr_id := resultId;
              qr_session_id := Some (ca_sessionId input);
              qr_question := ca_question input;
              qr_user_answer := Some (ca_studentAnswer input);
              qr_correct_answer := ca_correctAnswer input;
              qr_is_correct := if ca_isCorrect input then 1 else 0;
              qr_explanation := None;
              qr_created_at := current_timestamp_nth rt (statements_run w) |}] /\
      console w' = console w.
Proof.
  unfold checkAnswer, result_insert_rejected. run.
  destruct (sql_fails_nth rt (statements_run w)); simpl.
  - eexists. split; [reflexivity|]. simpl. eauto.
  - case_bool_decide; simpl; eexists; (split; [reflexivity|]); simpl; eauto.
Qed.

End CheckAnswer.

(** ** [getStudyStats]: all or nothing, and read-only *)

Lemma some_statement_fails_S rt w n :
  some_statement_fails rt w (S n) =
  some_statement_fails rt w n || sql_fails_nth rt (statements_run w + n).
Proof.
  unfold some_statement_fails. rewrite seq_S, existsb_app. simpl.
  by rewrite orb_false_r.
Qed.

(** [getStudyStats] never throws and never writes.  It issues four
    statements, five when a non-empty topic is given; if the storage
    rejects any of them the result is the fixed [{error, instruction}] and
    the error is logged once; otherwise it is the full payload.  In both
    cases both tables and the id counter are as before. *)
Theorem getStudyStats_all_or_nothing (rt : Runtime) (input : GetStudyStatsInput) (w : World) :
  let failed := some_statement_fails rt w (stats_statements (gs_topic input)) in
  exists w',
    getStudyStats rt input w =
      (Returned
         (if failed then
            StatsError "Unable to fetch study statistics"
              "Let the student know you couldn't retrieve their stats, but encourage them to keep studying!"
          else
            Stats (overall_of w) (topicsStudied_of w) (recentSessions_of w)
              (topicStats_of (gs_topic input) w)
              "Present these statistics in a friendly, encouraging way. Highlight improvements and suggest topics that might need more practice."),
       w') /\
    study_sessions w' = study_sessions w /\
    quiz_results w' = quiz_results w /\
    ids_drawn w' = ids_drawn w /\
    if failed
    then exists error, console w' = console w ++ [("Error fetching study stats:", error)]
    else console w' = console w /\
         statements_run w' =
           (statements_run w + stats_statements (gs_topic input))%nat.
Proof.
  destruct input as [topic]. simpl.
  assert (some_statement_fails rt w 4 =
          sql_fails_nth rt (statements_run w) ||
          sql_fails_nth rt (S (statements_run w)) ||
          sql_fails_nth rt (S (S (statements_run w))) ||
          sql_fails_nth rt (S (S (S (statements_run w))))) as H4.
  { rewrite !some_statement_fails_S. unfold some_statement_fails. simpl.
    rewrite Nat.add_0_r.
    replace (statements_run w + 1)%nat with (S (statements_run w)) by lia.
    replace (statements_run w + 2)%nat with (S (S (statements_run w))) by lia.
    replace (statements_run w + 3)%nat with (S (S (S (statements_run w)))) by lia.
    done. }
  assert (some_statement_fails rt w 5 =
          some_statement_fails rt w 4 ||
          sql_fails_nth rt (S (S (S (S (statements_run w)))))) as H5.
  { rewrite some_statement_fails_S. do 2 f_equal. lia. }
  unfold getStudyStats, stats_statements. run.
  destruct topic as [[|c t]|]; simpl; rewrite ?H5, H4;
    destruct (sql_fails_nth rt (statements_run w)); simpl; eauto 10;
    destruct (sql_fails_nth rt (S (statements_run w))); simpl; eauto 10;
    destruct (sql_fails_nth rt (S (S (statements_run w)))); simpl; eauto 10;
    destruct (sql_fails_nth rt (S (S (S (statements_run w))))); simpl; eauto 10;
    try (eexists; split; [reflexivity|]; simpl; repeat split; try done; lia).
  destruct (sql_fails_nth rt (S (S (S (S (statements_run w)))))); simpl; eauto 10.
  rewrite !or_zero_correct.
  eexists; split; [reflexivity|]; simpl; repeat split; try done; lia.
Qed.

(** ** The input schemas of the other three tools *)

Lemma Zod_boolean_inv v b : Zod.boolean v = Some b -> v = JsBool b.
Proof. destruct v; simpl; congruence. Qed.

Lemma Zod_optional_string_inv v o :
  Zod.optional Zod.string v = Some o ->
  (v = JsUndefined /\ o = None) \/ (exists s, v = JsString s /\ o = Some s).
Proof.
  destruct v; simpl; intros H; try discriminate.
  - left. split; [done|]. congruence.
  - right. eexists. split; [done|]. congruence.
Qed.

(** The schema of [checkAnswer] accepts exactly the objects that carry
    four strings under [sessionId], [question], [studentAnswer],
    [correctAnswer] and a boolean under [isCorrect] (a string such as
    "true" is not coerced); other entries of the object are ignored. *)
Theorem checkAnswer_schema_exact (input : JsVal) (args : CheckAnswerInput) :
  checkAnswer_inputSchema input = Some args <->
  exists fields,
    input = JsObject fields /\
    get "sessionId" fields = JsString (ca_sessionId args) /\
    get "question" fields = JsString (ca_question args) /\
    get "studentAnswer" fields = JsString (ca_studentAnswer args) /\
    get "correctAnswer" fields = JsString (ca_correctAnswer args) /\
    get "isCorrect" fields = JsBool (ca_isCorrect args).
Proof.
  split.
  - intros H. destruct input as [| | | | | |fields]; try discriminate.
    exists fields. split; [done|]. unfold checkAnswer_inputSchema in H.
    destruct (Zod.string (get "sessionId" fields)) eqn:H1; simpl in H; [|discriminate].
    destruct (Zod.string (get "question" fields)) eqn:H2; simpl in H; [|discriminate].
    destruct (Zod.string (get "studentAnswer" fields)) eqn:H3; simpl in H; [|discriminate].
    destruct (Zod.string (get "correctAnswer" fields)) eqn:H4; simpl in H; [|discriminate].
    destruct (Zod.boolean (get "isCorrect" fields)) eqn:H5; simpl in H; [|discriminate].
    injection H as <-. simpl.
    apply Zod_string_inv in H1, H2, H3, H4. apply Zod_boolean_inv in H5. done.
  - intros (fields & -> & H1 & H2 & H3 & H4 & H5).
    unfold checkAnswer_inputSchema. rewrite H1, H2, H3, H4, H5. simpl.
    by destruct args.
Qed.

(** The schema of [saveProgress] accepts exactly the objects that carry
    four strings, a boolean, and under [explanation] either nothing or a
    string; an explanation given as [null] is rejected, it is not taken
    for an absent one. *)
Theorem saveProgress_schema_exact (input : JsVal) (args : SaveProgressInput) :
  saveProgress_inputSchema input = Some args <->
  exists fields,
    input = JsObject fields /\
    get "sessionId" fields = JsString (sp_sessionId args) /\
    get "question" fields = JsString (sp_question args) /\
    get "userAnswer" fields = JsString (sp_userAnswer args) /\
    get "correctAnswer" fields = JsString (sp_correctAnswer args) /\
    get "isCorrect" fields = JsBool (sp_isCorrect args) /\
    get "explanation" fields =
      match sp_explanation args with
      | Some text => JsString text
      | None => JsUndefined
      end.
Proof.
  split.
  - intros H. destruct input as [| | | | | |fields]; try discriminate.
    exists fields. split; [done|]. unfold saveProgress_inputSchema in H.
    destruct (Zod.string (get "sessionId" fields)) eqn:H1; simpl in H; [|discriminate].
    destruct (Zod.string (get "question" fields)) eqn:H2; simpl in H; [|discriminate].
    destruct (Zod.string (get "userAnswer" fields)) eqn:H3; simpl in H; [|discriminate].
    destruct (Zod.string (get "correctAnswer" fields)) eqn:H4; simpl in H; [|discriminate].
    destruct (Zod.boolean (get "isCorrect" fields)) eqn:H5; simpl in H; [|discriminate].
    destruct (Zod.optional Zod.string (get "explanation" fields)) eqn:H6;
      simpl in H; [|discriminate].
    injection H as <-. simpl.
    apply Zod_string_inv in H1, H2, H3, H4. apply Zod_boolean_inv in H5.
    apply Zod_optional_string_inv in H6 as [[-> ->]|(txt & -> & ->)]; done.
  - intros (fields & -> & H1 & H2 & H3 & H4 & H5 & H6).
    unfold saveProgress_inputSchema. rewrite H1, H2, H3, H4, H5, H6. simpl.
    destruct args as [? ? ? ? ? [text|]]; done.
Qed.

(** The schema of [getStudyStats] accepts exactly the objects whose
    [topic] is absent or a string, the empty object included; a value that
    is not an object is rejected, and so is a [topic] of any other type. *)
Theorem getStudyStats_schema_exact (input : JsVal) (args : GetStudyStatsInput) :
  getStudyStats_inputSchema input = Some args <->
  exists fields,
    input = JsObject fields /\
    get "topic" fields =
      match gs_topic args with
      | Some text => JsString text
      | None => JsUndefined
      end.
Proof.
  split.
  - intros H. destruct input as [| | | | | |fields]; try discriminate.
    exists fields. split; [done|]. unfold getStudyStats_inputSchema in H.
    destruct (Zod.optional Zod.string (get "topic" fields)) eqn:H1;
      simpl in H; [|discriminate].
    injection H as <-. simpl.
    apply Zod_optional_string_inv in H1 as [[-> ->]|(txt & -> & ->)]; done.
  - intros (fields & -> & H1).
    unfold getStudyStats_inputSchema. rewrite H1.
    destruct args as [[text|]]; done.
Qed.

(** ** Calling tools *)

Section NeverThrows.

Context (rt : Runtime).

Lemma saveProgress_returns (input : SaveProgressInput) (w : World) :
  exists o w', saveProgress rt input w = (Returned o, w').
Proof.
  unfold saveProgress. run.
  destruct (sql_fails_nth rt (statements_run w)); simpl;
    [|case_bool_decide; simpl]; eauto.
Qed.

(** No call of a tool throws, whatever the input and whatever the storage
    does.  An input the tool's schema rejects is answered with the tool
    error and leaves the world exactly as it was: no id is drawn, no
    statement issued, nothing logged.  An input it accepts is answered
    with the tool's own result. *)
Theorem call_tool_never_throws (name : ToolName) (input : JsVal) (w : World) :
  exists out w',
    call_tool rt name input w = (Returned out, w') /\
    if tool_accepts name input
    then out <> InvalidToolInput
    else out = InvalidToolInput /\ w' = w.
Proof.
  destruct name; unfold call_tool, validated, tool_accepts.
  - destruct (generateQuiz_inputSchema input) as [args|]; [|by eexists _, _].
    unfold mbind, M_bind.
    destruct (generateQuiz_returns rt args w) as (o & w' & ->).
    eexists _, _. split; [reflexivity|]. done.
  - destruct (checkAnswer_inputSchema input) as [args|]; [|by eexists _, _].
    unfold mbind, M_bind.
    destruct (checkAnswer_returns rt args w) as (o & w' & -> & _).
    eexists _, _. split; [reflexivity|]. done.
  - destruct (getStudyStats_inputSchema input) as [args|]; [|by eexists _, _].
    unfold mbind, M_bind.
    destruct (getStudyStats_returns rt args w) as (o & w' & ->).
    eexists _, _. split; [reflexivity|]. done.
  - destruct (saveProgress_inputSchema input) as [args|]; [|by eexists _, _].
    unfold mbind, M_bind.
    destruct (saveProgress_returns args w) as (o & w' & ->).
    eexists _, _. split; [reflexivity|]. done.
Qed.

Lemma call_tool_returns (name : ToolName) (input : JsVal) (w : World) :
  is_returned (call_tool rt name input w).1.
Proof.
  destruct name; unfold call_tool, validated.
  - destruct (generateQuiz_inputSchema input) as [args|]; [|done].
    unfold mbind, M_bind.
    by destruct (generateQuiz_returns rt args w) as (o & w' & ->).
  - destruct (checkAnswer_inputSchema input) as [args|]; [|done].
    unfold mbind, M_bind.
    by destruct (checkAnswer_returns rt args w) as (o & w' & -> & _).
  - destruct (getStudyStats_inputSchema input) as [args|]; [|done].
    unfold mbind, M_bind.
    by destruct (getStudyStats_returns rt args w) as (o & w' & ->).
  - destruct (saveProgress_inputSchema input) as [args|]; [|done].
    unfold mbind, M_bind.
    by destruct (saveProgress_returns args w) as (o & w' & ->).
Qed.

(** A sequence of tool calls runs to its end: there is one outcome per
    call, none of them an exception, so a storage failure or a malformed
    input in one call never keeps the later calls from running. *)
Theorem run_calls_runs_to_the_end (calls : list (ToolName * JsVal)) (w : World) :
  length (run_calls rt calls w).1 = length calls /\
  Forall is_returned (run_calls rt calls w).1.
Proof.
  revert w. induction calls as [|[name input] calls IH]; intros w; simpl; [done|].
  pose proof (call_tool_returns name input w) as Hcall.
  destruct (call_tool rt name input w) as [out w1]. simpl in Hcall.
  specialize (IH w1). destruct (run_calls rt calls w1) as [outs w2]. simpl in *.
  destruct IH as [Hlen Hall]. split; [by rewrite Hlen|by constructor].
Qed.

End NeverThrows.

(** ** The payload of [getStudyStats] *)

Lemma getStudyStats_up rt topic w :
  storage_up rt w (stats_statements topic) ->
  exists w',
    getStudyStats rt {| gs_topic := topic |} w =
      (Returned
         (Stats (overall_of w) (topicsStudied_of w) (recentSessions_of w)
            (topicStats_of topic w)
            "Present these statistics in a friendly, encouraging way. Highlight improvements and suggest topics that might need more practice."),
       w') /\
    study_sessions w' = study_sessions w /\
    quiz_results w' = quiz_results w.
Proof.
  intros Hup.
  assert (forall k, (k < 4)%nat ->
            sql_fails_nth rt (Nat.iter k S (statements_run w)) = false) as H.
  { intros k Hk. apply (storage_up_at rt w (stats_statements topic)); [done|].
    unfold stats_statements. destruct topic as [t|]; [destruct (Js.truthy t)|]; lia. }
  pose proof (H 0%nat ltac:(lia)) as H0. pose proof (H 1%nat ltac:(lia)) as H1.
  pose proof (H 2%nat ltac:(lia)) as H2. pose proof (H 3%nat ltac:(lia)) as H3.
  simpl in H0, H1, H2, H3.
  unfold getStudyStats. run. rewrite H0. simpl. rewrite H1. simpl.
  rewrite H2. simpl. rewrite H3. simpl.
  destruct topic as [[|c t]|]; simpl; [by eexists| |by eexists].
  pose proof (storage_up_at rt w 5 4 Hup ltac:(lia)) as H4. simpl in H4.
  rewrite H4. simpl. rewrite !or_zero_correct. by eexists.
Qed.

(** *** Sorting *)

Lemma insert_desc_perm {A} (lt : A -> A -> bool) x l :
  insert_desc lt x l ≡ₚ x :: l.
Proof.
  induction l as [|y l IH]; simpl; [done|].
  destruct (lt x y); [|done]. rewrite IH. apply Permutation_swap.
Qed.

Lemma order_by_desc_perm {A} (lt : A -> A -> bool) l :
  order_by_desc lt l ≡ₚ l.
Proof.
  unfold order_by_desc. induction l as [|x l IH]; simpl; [done|].
  by rewrite insert_desc_perm, IH.
Qed.

Lemma insert_desc_sorted {A} (lt : A -> A -> bool) x l :
  (forall a b, lt a b = true -> lt b a = false) ->
  (forall a b c, lt a b = false -> lt b c = false -> lt a c = false) ->
  StronglySorted (fun a b => lt a b = false) l ->
  StronglySorted (fun a b => lt a b = false) (insert_desc lt x l).
Proof.
  intros Hasym Htrans. induction 1 as [|y l Hl IH Hy]; simpl.
  - by repeat constructor.
  - destruct (lt x y) eqn:Hxy.
    + constructor; [done|].
      rewrite insert_desc_perm. constructor; [by apply Hasym|done].
    + constructor; [by constructor|].
      constructor; [done|].
      eapply Forall_impl; [exact Hy|]. intros z Hz. by eapply Htrans.
Qed.

Lemma order_by_desc_sorted {A} (lt : A -> A -> bool) l :
  (forall a b, lt a b = true -> lt b a = false) ->
  (forall a b c, lt a b = false -> lt b c = false -> lt a c = false) ->
  StronglySorted (fun a b => lt a b = false) (order_by_desc lt l).
Proof.
  intros Hasym Htrans. unfold order_by_desc.
  induction l as [|x l IH]; simpl; [constructor|].
  by apply insert_desc_sorted.
Qed.

Lemma order_by_desc_fmap {A B} (f : A -> B) (lt : A -> A -> bool)
    (lt' : B -> B -> bool) l :
  (forall a b, lt a b = lt' (f a) (f b)) ->
  f <$> order_by_desc lt l = order_by_desc lt' (f <$> l).
Proof.
  intros Hlt. unfold order_by_desc.
  induction l as [|x l IH]; csimpl; [done|]. rewrite <- IH.
  generalize (foldr (insert_desc lt) [] l). intros k.
  induction k as [|y k IHk]; csimpl; [done|].
  rewrite <- Hlt. destruct (lt x y); csimpl; [|done]. by rewrite <- IHk.
Qed.

Lemma StronglySorted_take {A} (R : relation A) n l :
  StronglySorted R l -> StronglySorted R (take n l).
Proof.
  intros H. revert n. induction H as [|x l Hl IH Hx]; intros [|n]; simpl;
    try constructor; [apply IH|by apply Forall_take].
Qed.

Lemma String_ltb_asym a b : String.ltb a b = true -> String.ltb b a = false.
Proof.
  unfold String.ltb. rewrite (String.compare_antisym b a).
  by destruct (String.compare a b).
Qed.

Lemma String_ltb_false a b : String.ltb a b = false <-> String.leb b a = true.
Proof.
  unfold String.ltb, String.leb. rewrite (String.compare_antisym b a).
  by destruct (String.compare a b).
Qed.

Lemma String_ltb_false_trans a b c :
  String.ltb a b = false -> String.ltb b c = false -> String.ltb a c = false.
Proof.
  rewrite !String_ltb_false. intros Hba Hcb.
  apply Is_true_true. apply Is_true_true in Hba, Hcb.
  change (String.le c a). change (String.le b a) in Hba.
  change (String.le c b) in Hcb. by etransitivity.
Qed.

(** *** Recent sessions *)

Lemma recentSessions_of_sorted_entries w :
  recentSessions_of w =
  take 5 (order_by_desc (fun a b => String.ltb (date a) (date b))
            (recent_entry w <$> study_sessions w)).
Proof.
  unfold recentSessions_of, select_recent_sessions.
  rewrite fmap_take.
  erewrite (order_by_desc_fmap _ _ (fun a b => String.ltb (date a) (date b)));
    [|done].
  by rewrite <- list_fmap_compose.
Qed.

(** [recentSessions] lists the five newest sessions, newest first: it has
    five entries, or as many as there are sessions when there are fewer;
    no entry is older than an entry after it; every entry describes a
    stored session; and a session that is not listed is not newer than any
    that is. *)
Theorem recent_sessions_newest_first (rt : Runtime) (topic : option string) (w : World) :
  storage_up rt w (stats_statements topic) ->
  exists overall topicsStudied recent scoped instruction w',
    getStudyStats rt {| gs_topic := topic |} w =
      (Returned (Stats overall topicsStudied recent scoped instruction), w') /\
    length recent = (5 `min` length (study_sessions w))%nat /\
    StronglySorted (fun a b => String.ltb (date a) (date b) = false) recent /\
    (forall e, e ∈ recent -> exists s, s ∈ study_sessions w /\ e = recent_entry w s) /\
    (forall s, s ∈ study_sessions w ->
       recent_entry w s ∈ recent \/
       forall e, e ∈ recent -> String.ltb (date e) (ss_created_at s) = false).
Proof.
  intros Hup. destruct (getStudyStats_up rt topic w Hup) as (w' & Hrun & _).
  eexists _, _, _, _, _, _. split; [exact Hrun|].
  rewrite recentSessions_of_sorted_entries.
  set (lt := fun a b : RecentSession => String.ltb (date a) (date b)).
  set (entries := recent_entry w <$> study_sessions w).
  assert (StronglySorted (fun a b => lt a b = false) (order_by_desc lt entries))
    as Hsorted.
  { apply order_by_desc_sorted; unfold lt.
    - intros a b. apply String_ltb_asym.
    - intros a b c. apply String_ltb_false_trans. }
  split; [|split; [|split]].
  - rewrite length_take, (Permutation_length (order_by_desc_perm lt entries)).
    unfold entries. by rewrite length_fmap.
  - by apply StronglySorted_take.
  - intros e He.
    pose proof (elem_of_sublist _ _ _ He (sublist_take _ _)) as He'.
    rewrite (order_by_desc_perm lt entries) in He'.
    apply list_elem_of_fmap in He' as (s & -> & Hs). eauto.
  - intros s Hs.
    assert (recent_entry w s ∈ order_by_desc lt entries) as Hin.
    { rewrite (order_by_desc_perm lt entries). by apply list_elem_of_fmap_2. }
    rewrite <- (take_drop 5 (order_by_desc lt entries)) in Hin, Hsorted.
    apply elem_of_app in Hin as [Hin|Hin]; [by left|right].
    intros e He.
    apply (StronglySorted_app_1_elem_of _ _ _ e (recent_entry w s) Hsorted He Hin).
Qed.

Lemma recent_sessions_newest_first_witness :
  storage_up reliable python_world (stats_statements None) /\
  exists overall topicsStudied recent scoped instruction w',
    getStudyStats reliable {| gs_topic := None |} python_world =
      (Returned (Stats overall topicsStudied recent scoped instruction), w') /\
    length recent = 3%nat.
Proof.
  assert (storage_up reliable python_world (stats_statements None)) as Hup
    by (intros k _; reflexivity).
  split; [exact Hup|].
  destruct (recent_sessions_newest_first reliable None python_world Hup)
    as (o & t & r & sc & i & w' & Hrun & Hlen & _).
  exists o, t, r, sc, i, w'. split; [exact Hrun|].
  rewrite Hlen. reflexivity.
Defined.

(** *** Topics studied *)

Lemma sum_Z_perm l k : l ≡ₚ k -> sum_Z l = sum_Z k.
Proof. unfold sum_Z. induction 1; simpl; lia. Qed.

Lemma sum_Z_add {A} (f g : A -> Z) (l : list A) :
  sum_Z ((fun x => f x + g x) <$> l) = sum_Z (f <$> l) + sum_Z (g <$> l).
Proof. unfold sum_Z. induction l as [|x l IH]; csimpl; lia. Qed.

Lemma sum_Z_indicator (x : string) (D : list string) :
  NoDup D ->
  sum_Z ((fun t => if String.eqb t x then 1 else 0) <$> D) =
  if bool_decide (x ∈ D) then 1 else 0.
Proof.
  unfold sum_Z. induction 1 as [|t D Ht HD IH]; csimpl; [done|]. rewrite IH.
  destruct (String.eqb_spec t x) as [->|Hne].
  - rewrite (bool_decide_eq_true_2 (x ∈ x :: D)) by left.
    by rewrite (bool_decide_eq_false_2 (x ∈ D)).
  - destruct (decide (x ∈ D)) as [Hx|Hx].
    + rewrite (bool_decide_eq_true_2 (x ∈ D)) by done.
      rewrite (bool_decide_eq_true_2 (x ∈ t :: D)); [done|]. by right.
    + rewrite (bool_decide_eq_false_2 (x ∈ D)) by done.
      rewrite (bool_decide_eq_false_2 (x ∈ t :: D)); [done|].
      intros [->|?]%elem_of_cons; done.
Qed.

Lemma sum_of_counts (D l : list string) :
  NoDup D -> (forall x, x ∈ l -> x ∈ D) ->
  sum_Z ((fun t => count_where (String.eqb t) l) <$> D) = Z.of_nat (length l).
Proof.
  intros HD. induction l as [|x l IH]; intros Hin.
  - unfold count_where. simpl. unfold sum_Z.
    induction D as [|t D IHD]; csimpl; [done|].
    apply NoDup_cons in HD as [_ HD]. rewrite (IHD HD); [done|].
    intros ? []%not_elem_of_nil.
  - assert ((fun t => count_where (String.eqb t) (x :: l)) <$> D =
            (fun t => (if String.eqb t x then 1 else 0)
                      + count_where (String.eqb t) l) <$> D) as ->.
    { apply list_fmap_ext. intros _ t _. unfold count_where. simpl.
      destruct (String.eqb t x); simpl length; lia. }
    rewrite sum_Z_add, (sum_Z_indicator x D HD), IH.
    + rewrite bool_decide_eq_true_2 by (apply Hin; left). simpl length. lia.
    + intros y Hy. apply Hin. by right.
Qed.

Lemma topicsStudied_of_sorted_entries w :
  let topics := ss_topic <$> study_sessions w in
  topicsStudied_of w =
  order_by_desc (fun a b => sessionCount a <? sessionCount b)
    ((fun t => {| topic := t; sessionCount := count_where (String.eqb t) topics |})
       <$> remove_dups topics).
Proof.
  simpl. unfold topicsStudied_of, select_topics_studied.
  erewrite (order_by_desc_fmap _ _ (fun a b => sessionCount a <? sessionCount b));
    [|done].
  by rewrite <- list_fmap_compose.
Qed.

(** [topicsStudied] lists every topic that has a session exactly once,
    topics compared as written (so [Math] and [math] are two topics), each
    with the number of its sessions; the counts add up to the number of
    sessions, and no entry has a smaller count than an entry after it. *)
Theorem topics_studied_counts_sessions (rt : Runtime) (asked : option string) (w : World) :
  storage_up rt w (stats_statements asked) ->
  exists overall studied recent scoped instruction w',
    getStudyStats rt {| gs_topic := asked |} w =
      (Returned (Stats overall studied recent scoped instruction), w') /\
    NoDup (topic <$> studied) /\
    (forall t n,
       {| topic := t; sessionCount := n |} ∈ studied <->
       t ∈ ss_topic <$> study_sessions w /\
       n = count_where (String.eqb t) (ss_topic <$> study_sessions w)) /\
    sum_Z (sessionCount <$> studied) = Z.of_nat (length (study_sessions w)) /\
    StronglySorted (fun a b => sessionCount b <= sessionCount a) studied.
Proof.
  intros Hup. destruct (getStudyStats_up rt asked w Hup) as (w' & Hrun & _).
  eexists _, _, _, _, _, _. split; [exact Hrun|].
  rewrite topicsStudied_of_sorted_entries. simpl.
  set (topics := ss_topic <$> study_sessions w).
  set (lt := fun a b : TopicStudied => sessionCount a <? sessionCount b).
  set (entry := fun t => {| topic := t;
                            sessionCount := count_where (String.eqb t) topics |}).
  pose proof (order_by_desc_perm lt (entry <$> remove_dups topics)) as Hperm.
  split; [|split; [|split]].
  - rewrite Hperm, <- list_fmap_compose.
    rewrite (list_fmap_ext (topic ∘ entry) id) by done.
    rewrite list_fmap_id. apply NoDup_remove_dups.
  - intros t n. rewrite Hperm, list_elem_of_fmap. split.
    + intros (t' & Heq & Ht). unfold entry in Heq. injection Heq as -> ->.
      rewrite elem_of_remove_dups in Ht. by split.
    + intros [Ht ->]. exists t. split; [done|]. by rewrite elem_of_remove_dups.
  - rewrite (sum_Z_perm _ _ (fmap_Permutation sessionCount _ _ Hperm)).
    rewrite <- list_fmap_compose.
    rewrite (sum_of_counts (remove_dups topics) topics).
    + unfold topics. by rewrite length_fmap.
    + apply NoDup_remove_dups.
    + intros x. by rewrite elem_of_remove_dups.
  - rewrite <- (list_fmap_id (order_by_desc lt _)).
    apply (StronglySorted_fmap id (fun a b => lt a b = false)).
    + intros a b Hab. unfold lt in Hab. simpl. lia.
    + apply order_by_desc_sorted; unfold lt; intros; lia.
Qed.

Lemma topics_studied_counts_sessions_witness :
  storage_up reliable python_world (stats_statements None) /\
  exists overall studied recent scoped instruction w',
    getStudyStats reliable {| gs_topic := None |} python_world =
      (Returned (Stats overall studied recent scoped instruction), w') /\
    sum_Z (sessionCount <$> studied) = 3.
Proof.
  assert (storage_up reliable python_world (stats_statements None)) as Hup
    by (intros k _; reflexivity).
  split; [exact Hup|].
  destruct (topics_studied_counts_sessions reliable None python_world Hup)
    as (o & t & r & sc & i & w' & Hrun & _ & _ & Hsum & _).
  exists o, t, r, sc, i, w'. split; [exact Hrun|].
  rewrite Hsum. reflexivity.
Defined.

(** ** Recording answers and reading them back *)

Lemma count_where_snoc {A} (p : A -> bool) (l : list A) (x : A) :
  count_where p (l ++ [x]) = count_where p l + (if p x then 1 else 0).
Proof.
  unfold count_where. rewrite List.filter_app, length_app. simpl.
  destruct (p x); simpl; lia.
Qed.

Lemma count_where_bounds {A} (p : A -> bool) (l : list A) :
  0 <= count_where p l <= Z.of_nat (length l).
Proof.
  unfold count_where. split; [lia|]. apply inj_le.
  induction l as [|x l IH]; simpl; [lia|]. destruct (p x); simpl; lia.
Qed.

Lemma overall_after_row w w' row :
  quiz_results w' = quiz_results w ++ [row] ->
  totalQuestionsAnswered (overall_of w') = totalQuestionsAnswered (overall_of w) + 1 /\
  overall_correctAnswers (overall_of w') =
    overall_correctAnswers (overall_of w) + (if qr_is_correct row =? 1 then 1 else 0).
Proof.
  intros Hrows. unfold overall_of. simpl.
  rewrite Hrows, length_app, count_where_snoc. simpl. unfold is_correct_row.
  split; lia.
Qed.

(** An answer recorded by [checkAnswer] is what [getStudyStats] reports
    next: after an accepted insert the overall number of answers is one
    higher and the number of correct answers is one higher exactly when the
    answer was marked correct; after a rejected insert both numbers are as
    before, although [checkAnswer] returned the same kind of payload. *)
Theorem checked_answer_is_counted (rt : Runtime) (input : CheckAnswerInput) (w : World) :
  let w1 := (checkAnswer rt input w).2 in
  storage_up rt w1 4 ->
  exists overall topicsStudied recent instruction w2,
    getStudyStats rt {| gs_topic := None |} w1 =
      (Returned (Stats overall topicsStudied recent None instruction), w2) /\
    if result_insert_rejected rt (generateId_nth rt (ids_drawn w)) w then
      totalQuestionsAnswered overall = Z.of_nat (length (quiz_results w)) /\
      overall_correctAnswers overall = count_where is_correct_row (quiz_results w)
    else
      totalQuestionsAnswered overall = Z.of_nat (length (quiz_results w)) + 1 /\
      overall_correctAnswers overall =
        count_where is_correct_row (quiz_results w)
        + (if ca_isCorrect input then 1 else 0).
Proof.
  intros w1 Hup. destruct (getStudyStats_up rt None w1 Hup) as (w2 & Hrun & _).
  eexists _, _, _, _, _. split; [exact Hrun|].
  destruct (checkAnswer_effect rt input w) as [_ Hrows]. fold w1 in Hrows.
  destruct (result_insert_rejected rt _ w).
  - unfold overall_of. simpl. by rewrite Hrows.
  - destruct (overall_after_row w w1 _ Hrows) as [-> ->].
    split; [done|]. unfold overall_of. simpl. by destruct (ca_isCorrect input).
Qed.

Lemma checked_answer_is_counted_witness :
  storage_up reliable
    (checkAnswer reliable
       {| ca_sessionId := "id0"; ca_question := "q"; ca_studentAnswer := "a";
          ca_correctAnswer := "a"; ca_isCorrect := true |} python_world).2 4 /\
  exists overall topicsStudied recent instruction w2,
    getStudyStats reliable {| gs_topic := None |}
      (checkAnswer reliable
         {| ca_sessionId := "id0"; ca_question := "q"; ca_studentAnswer := "a";
            ca_correctAnswer := "a"; ca_isCorrect := true |} python_world).2 =
      (Returned (Stats overall topicsStudied recent None instruction), w2) /\
    totalQuestionsAnswered overall = 5.
Proof.
  set (input := {| ca_sessionId := "id0"; ca_question := "q"; ca_studentAnswer := "a";
                   ca_correctAnswer := "a"; ca_isCorrect := true |}).
  assert (storage_up reliable (checkAnswer reliable input python_world).2 4) as Hup
    by (intros k _; reflexivity).
  split; [exact Hup|].
  destruct (checked_answer_is_counted reliable input python_world Hup)
    as (o & t & r & i & w2 & Hrun & Hcount).
  exists o, t, r, i, w2. split; [exact Hrun|].
  change (result_insert_rejected reliable
            (generateId_nth reliable (ids_drawn python_world)) python_world)
    with false in Hcount.
  destruct Hcount as [-> _]. reflexivity.
Defined.

(** Following the instruction [generateQuiz] returns ("use the checkAnswer
    tool to evaluate and saveProgress to record the result") stores every
    answer twice: after [checkAnswer] and [saveProgress] for one answer,
    both inserts accepted, [quiz_results] has two more rows and the overall
    number of answers reported by [getStudyStats] is two higher. *)
Theorem one_answer_recorded_twice (rt : Runtime)
    (checked : CheckAnswerInput) (saved : SaveProgressInput) (w : World) :
  let w1 := (checkAnswer rt checked w).2 in
  let w2 := (saveProgress rt saved w1).2 in
  result_insert_rejected rt (generateId_nth rt (ids_drawn w)) w = false ->
  result_insert_rejected rt (generateId_nth rt (ids_drawn w1)) w1 = false ->
  storage_up rt w2 4 ->
  length (quiz_results w2) = S (S (length (quiz_results w))) /\
  exists overall topicsStudied recent instruction w3,
    getStudyStats rt {| gs_topic := None |} w2 =
      (Returned (Stats overall topicsStudied recent None instruction), w3) /\
    totalQuestionsAnswered overall = Z.of_nat (length (quiz_results w)) + 2 /\
    overall_correctAnswers overall =
      count_where is_correct_row (quiz_results w)
      + (if ca_isCorrect checked then 1 else 0)
      + (if sp_isCorrect saved then 1 else 0).
Proof.
  intros w1 w2 Hfirst Hsecond Hup.
  destruct (checkAnswer_effect rt checked w) as [_ Hrows1]. fold w1 in Hrows1.
  rewrite Hfirst in Hrows1.
  destruct (saveProgress_run rt saved w1) as (w2' & _ & Hsave).
  rewrite Hsecond in Hsave. destruct Hsave as (Hrun2 & Hrows2 & _).
  assert (w2 = w2') as <- by (unfold w2; by rewrite Hrun2).
  split; [rewrite Hrows2, Hrows1, !length_app; simpl; lia|].
  destruct (getStudyStats_up rt None w2 Hup) as (w3 & Hrun & _).
  eexists _, _, _, _, _. split; [exact Hrun|].
  destruct (overall_after_row w1 w2 _ Hrows2) as [-> ->].
  destruct (overall_after_row w w1 _ Hrows1) as [-> ->].
  unfold overall_of. simpl.
  destruct (ca_isCorrect checked), (sp_isCorrect saved); simpl; split; lia.
Qed.

Lemma one_answer_recorded_twice_witness :
  let checked := {| ca_sessionId := "id0"; ca_question := "q"; ca_studentAnswer := "a";
                    ca_correctAnswer := "a"; ca_isCorrect := true |} in
  let saved := {| sp_sessionId := "id0"; sp_question := "q"; sp_userAnswer := "a";
                  sp_correctAnswer := "a"; sp_isCorrect := true;
                  sp_explanation := None |} in
  length (quiz_results
            (saveProgress reliable saved
               (checkAnswer reliable checked empty_world).2).2) = 2%nat.
Proof.
  intros checked saved.
  apply (one_answer_recorded_twice reliable checked saved empty_world).
  - reflexivity.
  - reflexivity.
  - intros k _. reflexivity.
Defined.

(** ** Consistency of the reported numbers *)





(** ** A quiz and its answers under its topic *)

Lemma same_nocase_refl s : same_nocase s s = true.
Proof.
  induction s as [|c s IH]; simpl; [done|]. rewrite IH.
  unfold like_char. by rewrite Ascii.eqb_refl.
Qed.

Lemma contains_nocase_refl s : contains_nocase s s.
Proof.
  exists EmptyString, s, EmptyString. split; [|apply same_nocase_refl].
  by rewrite append_nil, append_empty_r.
Qed.

Lemma generateQuiz_effect rt (input : GenerateQuizInput) (w : World) :
  let w' := (generateQuiz rt input w).2 in
  study_sessions w' =
    (if session_insert_rejected rt (generateId_nth rt (ids_drawn w)) w
     then study_sessions w
     else study_sessions w ++
            [{| ss_id := generateId_nth rt (ids_drawn w); ss_topic := gq_topic input;
                ss_created_at := current_timestamp_nth rt (statements_run w) |}]) /\
  quiz_results w' = quiz_results w.
Proof.
  unfold generateQuiz, session_insert_rejected. run.
  destruct (sql_fails_nth rt (statements_run w)); simpl; [done|].
  by case_bool_decide.
Qed.

(** A quiz started with [generateQuiz] and an answer checked under the
    session id it returned are found again by topic: when both inserts are
    accepted and the topic has no [%] or [_] in it and is not empty,
    [getStudyStats] asked for that topic counts the answer, linked to the
    new session, and the topic is listed in [topicsStudied]. *)
Theorem quiz_answer_found_by_topic (rt : Runtime) (quiz : GenerateQuizInput)
    (answer : CheckAnswerInput) (w : World) :
  let sessionId := generateId_nth rt (ids_drawn w) in
  let w1 := (generateQuiz rt quiz w).2 in
  let w2 := (checkAnswer rt answer w1).2 in
  ca_sessionId answer = sessionId ->
  no_wildcard (gq_topic quiz) = true ->
  Js.truthy (gq_topic quiz) = true ->
  session_insert_rejected rt sessionId w = false ->
  result_insert_rejected rt (generateId_nth rt (ids_drawn w1)) w1 = false ->
  storage_up rt w2 5 ->
  exists overall studied recent scoped instruction w3 session,
    getStudyStats rt {| gs_topic := Some (gq_topic quiz) |} w2 =
      (Returned (Stats overall studied recent (Some scoped) instruction), w3) /\
    ss_id session = sessionId /\ ss_topic session = gq_topic quiz /\
    (checked_row rt answer w1, session) ∈ joined_like (topic_pattern (gq_topic quiz)) w2 /\
    1 <= totalQuestions scoped /\
    (exists n, 1 <= n /\ {| topic := gq_topic quiz; sessionCount := n |} ∈ studied).
Proof.
  intros sessionId w1 w2 Hid Hlit Htruthy Hquiz Hanswer Hup.
  destruct (generateQuiz_effect rt quiz w) as (Hs1 & Hr1).
  fold w1 in Hs1, Hr1. fold sessionId in Hs1. rewrite Hquiz in Hs1.
  destruct (checkAnswer_effect rt answer w1) as [Hs2 Hr2]. fold w2 in Hs2, Hr2.
  rewrite Hanswer in Hr2.
  set (session := {| ss_id := sessionId; ss_topic := gq_topic quiz;
                     ss_created_at := current_timestamp_nth rt (statements_run w) |}).
  assert ((checked_row rt answer w1, session)
            ∈ joined_like (topic_pattern (gq_topic quiz)) w2) as Hjoin.
  { apply elem_of_joined_like. rewrite Hr2, Hs2, Hs1.
    split; [apply elem_of_app; right; by left|].
    split; [apply elem_of_app; right; by left|].
    split; [simpl; by rewrite Hid|].
    apply like_topic_pattern; [done|]. apply contains_nocase_refl. }
  assert (storage_up rt w2 (stats_statements (Some (gq_topic quiz)))) as Hup'
    by (unfold stats_statements; by rewrite Htruthy).
  destruct (getStudyStats_up rt (Some (gq_topic quiz)) w2 Hup') as (w3 & Hrun & _).
  unfold topicStats_of in Hrun. rewrite Htruthy in Hrun.
  eexists _, _, _, _, _, _, session. split; [exact Hrun|].
  do 3 (split; [done|]). split.
  - simpl. destruct (joined_like (topic_pattern (gq_topic quiz)) w2);
      [by apply not_elem_of_nil in Hjoin|simpl length; lia].
  - assert (ss_topic <$> study_sessions w2 =
            (ss_topic <$> study_sessions w) ++ [gq_topic quiz]) as Htopics
      by (rewrite Hs2, Hs1, fmap_app; reflexivity).
    exists (count_where (String.eqb (gq_topic quiz)) (ss_topic <$> study_sessions w2)).
    split.
    + rewrite Htopics, count_where_snoc, String.eqb_refl.
      pose proof (count_where_bounds (String.eqb (gq_topic quiz))
                    (ss_topic <$> study_sessions w)). lia.
    + rewrite topicsStudied_of_sorted_entries. simpl.
      rewrite order_by_desc_perm. apply list_elem_of_fmap.
      exists (gq_topic quiz). split; [done|]. rewrite elem_of_remove_dups.
      rewrite Htopics. apply elem_of_app. right. by left.
Qed.

Lemma quiz_answer_found_by_topic_witness :
  let quiz := {| gq_topic := "Photosynthesis"; gq_difficulty := easy;
                 gq_numberOfQuestions := Js.of_Z 3 |} in
  let answer := {| ca_sessionId := "id0"; ca_question := "q";
                   ca_studentAnswer := "CO2"; ca_correctAnswer := "CO2";
                   ca_isCorrect := true |} in
  let w2 := (checkAnswer reliable answer (generateQuiz reliable quiz empty_world).2).2 in
  exists overall studied recent scoped instruction w3,
    getStudyStats reliable {| gs_topic := Some "Photosynthesis" |} w2 =
      (Returned (Stats overall studied recent (Some scoped) instruction), w3) /\
    1 <= totalQuestions scoped.
Proof.
  intros quiz answer w2.
  destruct (quiz_answer_found_by_topic reliable quiz answer empty_world)
    as (o & t & r & sc & i & w3 & s & Hrun & _ & _ & _ & Hone & _).
  - reflexivity.
  - reflexivity.
  - reflexivity.
  - reflexivity.
  - reflexivity.
  - intros k _. reflexivity.
  - by exists o, t, r, sc, i, w3.
Defined.

(** ** Wildcards and case in the topic filter *)



Lemma no_wildcard_app a b :
  no_wildcard (a +:+ b) = no_wildcard a && no_wildcard b.
Proof.
  induction a as [|c a IH]; [done|].
  rewrite append_cons. simpl. by rewrite IH, andb_assoc.
Qed.

Lemma ascii_lower_percent c : ascii_lower c = "%"%char -> c = "%"%char.
Proof.
  destruct c as [[] [] [] [] [] [] [] []]; vm_compute; congruence.
Qed.

Lemma ascii_lower_underscore c : ascii_lower c = "_"%char -> c = "_"%char.
Proof.
  destruct c as [[] [] [] [] [] [] [] []]; vm_compute; congruence.
Qed.

Lemma like_char_wildcard c d :
  like_char c d = true -> is_wildcard c = true -> d = c.
Proof.
  unfold like_char, is_wildcard. intros Hcd%Ascii.eqb_eq [Hc|Hc]%orb_true_iff;
    apply Ascii.eqb_eq in Hc; subst c; symmetry in Hcd.
  - by apply ascii_lower_percent.
  - by apply ascii_lower_underscore.
Qed.



Lemma like_char_eqb c d (x : ascii) :
  like_char c d = true -> is_wildcard x = true -> Ascii.eqb c x = Ascii.eqb d x.
Proof.
  intros Hcd Hx.
  destruct (Ascii.eqb_spec c x) as [->|Hc], (Ascii.eqb_spec d x) as [->|Hd]; try done.
  - exfalso. apply Hd. by apply like_char_wildcard.
  - exfalso. apply Hc. apply like_char_wildcard; [|done].
    unfold like_char in *. by rewrite Ascii.eqb_sym.
Qed.

Lemma like_char_trans c d x : like_char c d = true -> like_char c x = like_char d x.
Proof. unfold like_char. by intros ->%Ascii.eqb_eq. Qed.

Lemma like_same_pattern p q :
  same_nocase p q = true -> forall text, like p text = like q text.
Proof.
  revert q. induction p as [|c p IH]; intros [|d q] Hsame; try done.
  simpl in Hsame. apply andb_true_iff in Hsame as [Hcd Hsame].
  specialize (IH q Hsame).
  pose proof (like_char_eqb c d "%" Hcd eq_refl) as Hp.
  pose proof (like_char_eqb c d "_" Hcd eq_refl) as Hu.
  destruct (Ascii.eqb_spec c "%") as [->|Hc].
  - symmetry in Hp. apply Ascii.eqb_eq in Hp as ->.
    induction text as [|x text IHt].
    + by rewrite (like_percent p EmptyString), (like_percent q EmptyString), IH.
    + by rewrite (like_percent p (String x text)), (like_percent q (String x text)),
        IH, IHt.
  - intros text. simpl. rewrite <- Hp, <- Hu.
    destruct (Ascii.eqb_spec c "%"); [done|].
    destruct (Ascii.eqb c "_"); [by destruct text|].
    destruct text as [|x text]; [done|].
    by rewrite (like_char_trans c d x Hcd), IH.
Qed.

Lemma like_same_text p :
  forall a b, same_nocase a b = true -> like p a = like p b.
Proof.
  induction p as [|c p IH]; intros a b Hsame.
  - by destruct a, b.
  - destruct (Ascii.eqb_spec c "%") as [->|Hc].
    + revert b Hsame. induction a as [|x a IHa]; intros [|y b] Hsame; try done.
      simpl in Hsame. apply andb_true_iff in Hsame as [Hxy Hsame].
      rewrite (like_percent p (String x a)), (like_percent p (String y b)).
      rewrite (IHa b Hsame). f_equal. apply IH. simpl. by rewrite Hxy.
    + simpl. destruct (Ascii.eqb_spec c "%"); [done|].
      destruct a as [|x a], b as [|y b]; try done;
        [by destruct (Ascii.eqb c "_")..|].
      simpl in Hsame. apply andb_true_iff in Hsame as [Hxy Hsame].
      destruct (Ascii.eqb c "_"); [by apply IH|].
      rewrite (IH a b Hsame). f_equal.
      unfold like_char in *. apply Ascii.eqb_eq in Hxy. by rewrite Hxy.
Qed.

Lemma same_nocase_pattern t t' :
  same_nocase t t' = true -> same_nocase (topic_pattern t) (topic_pattern t') = true.
Proof.
  intros H. unfold topic_pattern.
  change (same_nocase (String "%" (t +:+ "%")) (String "%" (t' +:+ "%")) = true).
  simpl. revert t' H. induction t as [|c t IH]; intros [|d t'] H; try done.
  rewrite !append_cons. simpl in *. apply andb_true_iff in H as [-> H]. by apply IH.
Qed.

Lemma joined_like_ext p q w :
  (forall text, like p text = like q text) -> joined_like p w = joined_like q w.
Proof.
  intros H. unfold joined_like.
  induction (quiz_results w) as [|r results IH]; csimpl; [done|].
  rewrite IH. f_equal. f_equal. apply List.filter_ext. intros s. by rewrite H.
Qed.

(** The topic filter ignores ASCII case on both sides: two topics that
    differ only in case select the same rows, so their scoped totals,
    correct counts and accuracies agree, and two session topics that
    differ only in case are selected or passed over together. *)
Theorem topic_filter_ignores_case (rt : Runtime) (asked asked' : string) (w : World) :
  same_nocase asked asked' = true ->
  storage_up rt w 5 ->
  (exists overall studied recent instruction w1 w2 scoped scoped',
     getStudyStats rt {| gs_topic := Some asked |} w =
       (Returned (Stats overall studied recent scoped instruction), w1) /\
     getStudyStats rt {| gs_topic := Some asked' |} w =
       (Returned (Stats overall studied recent scoped' instruction), w2) /\
     match scoped, scoped' with
     | Some s, Some s' =>
         ts_topic s = asked /\ ts_topic s' = asked' /\
         totalQuestions s = totalQuestions s' /\
         ts_correctAnswers s = ts_correctAnswers s' /\
         ts_accuracy s = ts_accuracy s'
     | None, None => asked = EmptyString /\ asked' = EmptyString
     | _, _ => False
     end) /\
  (forall topic topic',
     same_nocase topic topic' = true ->
     like (topic_pattern asked) topic = like (topic_pattern asked') topic').
Proof.
  intros Hsame Hup.
  assert (forall text, like (topic_pattern asked) text = like (topic_pattern asked') text)
    as Hlike by (apply like_same_pattern; by apply same_nocase_pattern).
  split.
  - assert (forall t, storage_up rt w (stats_statements (Some t))) as Hup'.
    { intros t k Hk. apply Hup. unfold stats_statements in Hk.
      destruct (Js.truthy t); lia. }
    destruct (getStudyStats_up rt (Some asked) w (Hup' _)) as (w1 & Hrun1 & _).
    destruct (getStudyStats_up rt (Some asked') w (Hup' _)) as (w2 & Hrun2 & _).
    eexists _, _, _, _, w1, w2, _, _. split; [exact Hrun1|]. split; [exact Hrun2|].
    unfold topicStats_of.
    destruct asked as [|c t], asked' as [|c' t']; try done.
    cbn [Js.truthy ts_topic totalQuestions ts_correctAnswers ts_accuracy].
    by rewrite (joined_like_ext _ _ w Hlike).
  - intros topic topic' Htopics. rewrite Hlike. by apply like_same_text.
Qed.

Lemma topic_filter_ignores_case_witness :
  same_nocase "PYTHON" "python" = true /\
  storage_up reliable python_world 5 /\
  like (topic_pattern "PYTHON") "Advanced Python" =
  like (topic_pattern "python") "ADVANCED PYTHON".
Proof.
  assert (storage_up reliable python_world 5) as Hup by (intros k _; reflexivity).
  do 2 (split; [done|]).
  by apply (topic_filter_ignores_case reliable "PYTHON" "python" python_world eq_refl Hup).
Defined.

(** ** Existing invariants, at concrete inputs *)

Lemma run_calls_unique_keys_witness :
  unique_keys empty_world /\ unique_keys python_world.
Proof.
  assert (unique_keys empty_world) as Hempty by (split; apply NoDup_nil_2).
  split; [exact Hempty|].
  exact (run_calls_unique_keys reliable python_study empty_world Hempty).
Defined.

Lemma accuracy_near_exact_witness :
  0 <= 23 <= 40 /\ 0 < 40 <= 120 /\ near_exact 23 40 = true.
Proof.
  assert (0 <= 23 <= 40) as Hc by lia.
  assert (0 < 40 <= 120) as Ht by lia.
  split; [exact Hc|]. split; [exact Ht|].
  exact (accuracy_near_exact 23 40 Hc Ht).
Defined.

(** ** The schemas at concrete inputs *)

Lemma checkAnswer_schema_exact_witness :
  checkAnswer_inputSchema
    (JsObject [("sessionId", JsString "id0"); ("question", JsString "q");
               ("studentAnswer", JsString "a"); ("correctAnswer", JsString "a");
               ("isCorrect", JsString "true")]) = None.
Proof.
  destruct (checkAnswer_inputSchema _) as [args|] eqn:H; [|reflexivity].
  apply (proj1 (checkAnswer_schema_exact _ args)) in H
    as (fields & [= <-] & _ & _ & _ & _ & Hbool).
  discriminate Hbool.
Defined.

Lemma saveProgress_schema_exact_witness :
  saveProgress_inputSchema
    (JsObject [("sessionId", JsString "id0"); ("question", JsString "q");
               ("userAnswer", JsString "a"); ("correctAnswer", JsString "a");
               ("isCorrect", JsBool true); ("explanation", JsNull)]) = None.
Proof.
  destruct (saveProgress_inputSchema _) as [args|] eqn:H; [|reflexivity].
  apply (proj1 (saveProgress_schema_exact _ args)) in H
    as (fields & [= <-] & _ & _ & _ & _ & _ & Hexplanation).
  destruct (sp_explanation args); discriminate Hexplanation.
Defined.

Lemma getStudyStats_schema_exact_witness :
  getStudyStats_inputSchema (JsObject []) = Some {| gs_topic := None |} /\
  getStudyStats_inputSchema (JsString "python") = None.
Proof.
  split.
  - apply (proj2 (getStudyStats_schema_exact (JsObject []) {| gs_topic := None |})).
    by exists [].
  - destruct (getStudyStats_inputSchema _) as [args|] eqn:H; [|reflexivity].
    apply (proj1 (getStudyStats_schema_exact _ args)) in H as (fields & Hobject & _).
    discriminate Hobject.
Defined.

(** ** Where the code departs from what it sets out to do *)

Lemma wildcard_not_contained (c : ascii) (rest text : string) :
  is_wildcard c = true -> no_wildcard text = true ->
  ~ contains_nocase (String c rest) text.
Proof.
  intros Hc Htext (before & mid & after & -> & Hsame).
  destruct mid as [|d mid]; [discriminate|].
  simpl in Hsame. apply andb_true_iff in Hsame as [Hcd _].
  apply (like_char_wildcard c d) in Hcd; [|done]. subst d.
  rewrite no_wildcard_app, append_cons in Htext. simpl in Htext.
  rewrite Hc in Htext. simpl in Htext. by rewrite andb_false_r in Htext.
Qed.

(** C4 at the topic [%].  In the world of two Python sessions and a
    cooking session, no session topic contains the character [%], so a
    case-insensitive substring filter selects nothing for the topic "%".
    [getStudyStats] passes the topic unescaped into the [LIKE] pattern,
    where [%] is a wildcard: it reports all four recorded answers, the
    cooking session's among them, as the topic's statistics. *)
Theorem percent_topic_counts_every_session :
  Forall (fun s => ~ contains_nocase "%" (ss_topic s)) (study_sessions python_world) /\
  exists topicsStudied recentSessions instruction w',
    getStudyStats reliable {| gs_topic := Some "%" |} python_world =
      (Returned
         (Stats (overall_of python_world) topicsStudied recentSessions
            (Some {| ts_topic := "%"; totalQuestions := 4;
                     ts_correctAnswers := 3; ts_accuracy := Js.of_Z 75 |})
            instruction), w').
Proof.
  split.
  - assert (study_sessions python_world =
            [ {| ss_id := "id0"; ss_topic := "Python Basics"; ss_created_at := "t0" |};
              {| ss_id := "id1"; ss_topic := "Advanced Python"; ss_created_at := "t1" |};
              {| ss_id := "id2"; ss_topic := "Cooking"; ss_created_at := "t2" |} ])
      as -> by (vm_compute; reflexivity).
    repeat constructor; simpl; by apply wildcard_not_contained.
  - eexists _, _, _, _. vm_compute. reflexivity.
Qed.

(** C6 at 2.5 questions.  The schema of [generateQuiz] bounds the number
    of questions by 1 and 10 and does not ask for an integer: the input
    [{topic: "x", numberOfQuestions: 2.5}] is let through, [execute] runs
    on it, stores a session and returns a payload asking for 2.5
    questions. *)
Theorem generateQuiz_runs_on_a_fraction :
  is_integer two_and_a_half = false /\
  exists payload w',
    call_tool reliable generateQuiz_tool
      (JsObject [("topic", JsString "x");
                 ("numberOfQuestions", JsNumber two_and_a_half)])
      empty_world = (Returned (GenerateQuizOut payload), w') /\
    gqo_numberOfQuestions payload = two_and_a_half /\
    gqo_sessionId payload = "id0" /\
    study_sessions w' =
      [ {| ss_id := "id0"; ss_topic := "x"; ss_created_at := "t0" |} ].
Proof.
  split; [reflexivity|].
  eexists _, _. split; [vm_compute; reflexivity|]. by vm_compute.
Qed.
